(** * cloudflare-setup.py: the Cloudflare security-rules provisioning script

    A shallow embedding of [cloudflare-setup.py].  The script talks to three
    things outside itself: the provider's REST API (through [requests]),
    standard input (through [input]) and standard output (through [print]).
    They are modelled by an explicit world: a provider that answers each HTTP
    request and moves to a new state, a queue of things that happen at the
    keyboard, and the list of events the script produced, in order.

    Python exceptions are modelled by an error monad whose exceptions keep
    Python's class distinction between [Exception] and the two
    [BaseException]s the script meets, [KeyboardInterrupt] and [SystemExit]:
    [except Exception] lets the latter two pass, a bare [except:] does not.

    [print] itself can fail: standard output encodes its text as UTF-8 and
    refuses a lone surrogate, which a string of a decoded response can
    hold.  The script prints such strings in its listing and in its failure
    lines, so this error path is part of the model. *)

From Stdlib Require Import String Ascii List ZArith Bool Lia.
Import ListNotations.
Open Scope string_scope.
Set Warnings "-register-all".

(** ** Decoded JSON values

    What [response.json()] returns and what is passed as [json=...]: Python
    [None], [bool], [int], [str], [list] and [dict] with string keys.  A dict
    is an association list read from its head (in a Python dict a key occurs
    once).  Numbers are the integers: the script never computes with a
    number of a response, it tests it for truth or prints it. *)

Inductive json : Type :=
| JNull
| JBool (b : bool)
| JNum (n : Z)
| JStr (s : string)
| JArr (l : list json)
| JObj (kv : list (string * json)).

(** Python truth value of a decoded value ([if v], [not v], [a and b]). *)
Definition truthy (v : json) : bool :=
  match v with
  | JNull => false
  | JBool b => b
  | JNum n => negb (n =? 0)%Z
  | JStr s => negb (s =? "")
  | JArr l => match l with [] => false | _ => true end
  | JObj kv => match kv with [] => false | _ => true end
  end.

Fixpoint dict_lookup (k : string) (kv : list (string * json)) : option json :=
  match kv with
  | [] => None
  | (k', v) :: rest => if k' =? k then Some v else dict_lookup k rest
  end.

(** ** Exceptions *)

Inductive exn : Type :=
| APIError (errors : json)
    (* raise Exception(f"Cloudflare API Error: {result.get('errors')}") *)
| AttributeError
| KeyError (k : string)
| TypeError
| JSONDecodeError
| RequestException
| UnboundLocalError
| EOFError
| UnicodeEncodeError
    (* print() of text that standard output cannot encode *)
| KeyboardInterrupt
| SystemExit (code : Z).

(** [isinstance(e, Exception)]: everything but the two BaseExceptions. *)
Definition is_Exception (e : exn) : bool :=
  match e with
  | KeyboardInterrupt | SystemExit _ => false
  | _ => true
  end.

Inductive Res (A : Type) : Type :=
| Ok (a : A)
| Raise (e : exn).
Arguments Ok {A} a.
Arguments Raise {A} e.

(** ** Pure Python operations on decoded values *)

(** [v.get(k, default)]; only a dict has [.get]. *)
Definition py_get (v : json) (k : string) (default : json) : Res json :=
  match v with
  | JObj kv => match dict_lookup k kv with
               | Some x => Ok x
               | None => Ok default
               end
  | _ => Raise AttributeError
  end.

(** [v[k]] with a string key. *)
Definition py_subscript (v : json) (k : string) : Res json :=
  match v with
  | JObj kv => match dict_lookup k kv with
               | Some x => Ok x
               | None => Raise (KeyError k)
               end
  | _ => Raise TypeError
  end.

(** A Python [str] is a sequence of code points; the model keeps its UTF-8
    bytes, so [len], slicing and iteration first cut the bytes into code
    points: a byte [10xxxxxx] continues the code point before it. *)
Definition is_continuation (c : ascii) : bool :=
  let n := nat_of_ascii c in (128 <=? n)%nat && (n <? 192)%nat.

Fixpoint utf8_chars_aux (cur : string) (s : string) : list string :=
  match s with
  | EmptyString => [cur]
  | String c rest =>
      if is_continuation c
      then utf8_chars_aux (cur ++ String c EmptyString) rest
      else cur :: utf8_chars_aux (String c EmptyString) rest
  end.

Definition utf8_chars (s : string) : list string :=
  match s with
  | EmptyString => []
  | String c rest => utf8_chars_aux (String c EmptyString) rest
  end.

(** [s[:n]] *)
Definition slice_to (n : nat) (s : string) : string :=
  String.concat "" (firstn n (utf8_chars s)).

(** [len(v)] *)
Definition py_len (v : json) : Res Z :=
  match v with
  | JStr s => Ok (Z.of_nat (length (utf8_chars s)))
  | JArr l => Ok (Z.of_nat (length l))
  | JObj kv => Ok (Z.of_nat (length kv))
  | _ => Raise TypeError
  end.

(** The items a [for] loop sees: the elements of a list, the characters of a
    str, the keys of a dict. *)
Definition py_iter (v : json) : Res (list json) :=
  match v with
  | JStr s => Ok (map JStr (utf8_chars s))
  | JArr l => Ok l
  | JObj kv => Ok (map (fun p => JStr (fst p)) kv)
  | _ => Raise TypeError
  end.

(** [s.lower()].  Only A..Z are mapped; no other code point lowers to an
    ASCII letter of "yes", so the comparisons with ['yes'] agree with
    Python's on every input. *)
Definition lower_ascii (c : ascii) : ascii :=
  let n := nat_of_ascii c in
  if (65 <=? n)%nat && (n <=? 90)%nat then ascii_of_nat (n + 32) else c.

Fixpoint lower (s : string) : string :=
  match s with
  | EmptyString => EmptyString
  | String c rest => String (lower_ascii c) (lower rest)
  end.

(** [x in args] *)
Definition py_in (x : string) (args : list string) : bool :=
  existsb (String.eqb x) args.

(** ** The outside world *)

Inductive Method : Type := GET | POST | PUT | PATCH | DELETE.

Record Request : Type := mkRequest {
  rq_method : Method;
  rq_url : string;
  rq_headers : list (string * string);
  rq_json : option json
}.

(** What one call of [requests.get/post/put/patch/delete] comes to: a
    response whose body decodes as JSON ([Some]) or does not ([None]), an
    exception of the transport, or Ctrl-C while the call blocks. *)
Inductive HttpOutcome : Type :=
| Responded (body : option json)
| TransportFailure
| Interrupted.

(** What [input()] meets: a line, or Ctrl-C.  An exhausted queue is end of
    file. *)
Inductive StdinEvent : Type :=
| Line (s : string)
| CtrlC.

(** A printed line is kept as the pieces of its f-string: literal text, an
    interpolated value (rendered by [str()]), an interpolated exception. *)
Inductive piece : Type :=
| T (s : string)
| V (v : json)
| X (e : exn).

Inductive Event : Type :=
| EPrint (line : list piece)             (* print(...), newline implied *)
| EPrompt (prompt : string)              (* the prompt written by input() *)
| EHttp (rq : Request) (o : HttpOutcome) (* one HTTP call and its outcome *).

Definition nl : string := String (ascii_of_nat 10) EmptyString.
Definition dq : string := String (ascii_of_nat 34) EmptyString.

(** ** What standard output accepts

    [print] hands its text to standard output, which encodes it as UTF-8
    with the [strict] error handler.  UTF-8 encodes every code point but
    the surrogates U+D800..U+DFFF, and [json] decodes an unpaired escape
    such as [\ud83d] to one.  The model keeps a lone surrogate as the three
    bytes that the [surrogatepass] handler gives it, [ED A0..BF 80..BF]:
    no UTF-8 text holds [ED] followed by a byte above [9F]. *)
Definition is_surrogate_lead (c d : ascii) : bool :=
  (nat_of_ascii c =? 237)%nat
  && (160 <=? nat_of_ascii d)%nat && (nat_of_ascii d <=? 191)%nat.

Fixpoint has_surrogate (s : string) : bool :=
  match s with
  | EmptyString => false
  | String c rest =>
      match rest with
      | String d _ => is_surrogate_lead c d
      | EmptyString => false
      end
      || has_surrogate rest
  end.

(** Can standard output encode the text [s]? *)
Definition encodable (s : string) : bool := negb (has_surrogate s).

(** Can it encode [str(v)]?  [str] of a string is the string itself;
    [str] of [None], a bool or a number is ASCII; [str] of a list or a
    dict shows the strings inside through [repr], which escapes a lone
    surrogate. *)
Definition str_encodable (v : json) : bool :=
  match v with
  | JStr s => encodable s
  | _ => true
  end.

(** Can it encode [str(e)]?  The text of the script's own exception is
    ["Cloudflare API Error: " + str(errors)] (line 103); the messages of the
    exceptions Python and [requests] raise show offending text through
    [repr]. *)
Definition exn_encodable (e : exn) : bool :=
  match e with
  | APIError errors => str_encodable errors
  | _ => true
  end.

Definition piece_encodable (p : piece) : bool :=
  match p with
  | T s => encodable s
  | V v => str_encodable v
  | X e => exn_encodable e
  end.

(** A line [print] can write. *)
Definition printable (line : list piece) : bool :=
  forallb piece_encodable line.

(** ** The static tables *)

Definition API_BASE : string := "https://api.cloudflare.com/client/v4".

(** Helpers to write filter expressions, which are full of double quotes. *)
Definition q (s : string) : string := dq ++ s ++ dq.
Definition contains (field lit : string) : string :=
  field ++ " contains " ++ q lit.
Definition par (s : string) : string := "(" ++ s ++ ")".
Definition any_of (l : list string) : string := String.concat " or " l.

Definition ua (lit : string) : string := par (contains "http.user_agent" lit).
Definition qry (lit : string) : string :=
  par (contains "http.request.uri.query" lit).
Definition path_has (lit : string) : string :=
  contains "http.request.uri.path" lit.
Definition body_has (lit : string) : string :=
  contains "http.request.body" lit.

Definition rule1 : json := JObj [
  ("action", JStr "block");
  ("description", JStr "Block AI bots, scrapers, and malicious user agents to protect LGBTQ+ user privacy");
  ("expression", JStr (any_of (
     "(cf.bot_management.score lt 30)" ::
     map ua ["GPTBot"; "ChatGPT"; "Claude-Web"; "anthropic-ai";
             "Google-Extended"; "CCBot"; "FacebookBot"; "Bytespider";
             "Applebot-Extended"; "PerplexityBot"; "Diffbot"; "Scrapy";
             "python-requests"; "curl"; "wget"; "sqlmap"; "nikto"; "nmap"]
     ++ [par ("http.user_agent eq " ++ q "")])));
  ("enabled", JBool true) ].

Definition rule2 : json := JObj [
  ("action", JStr "managed_challenge");
  ("description", JStr "Protect admin panel, auth endpoints, and challenge high threat traffic");
  ("expression", JStr (any_of [
     par (par (path_has "/api/admin") ++ " and (cf.threat_score gt 10)");
     par (par (any_of [path_has "/api/auth/login";
                       path_has "/api/auth/signup";
                       path_has "/api/auth/reset-password"])
          ++ " and (cf.threat_score gt 5)");
     "(cf.threat_score gt 20)" ]));
  ("enabled", JBool true) ].

Definition rule3 : json := JObj [
  ("action", JStr "block");
  ("description", JStr "Block SQL injection, XSS attacks, and malicious file upload attempts");
  ("expression", JStr (any_of (
     map qry ["UNION SELECT"; "DROP TABLE"; "<script>"; "javascript:";
              "onerror="; "onload="]
     ++ [par (par (path_has "/api/upload") ++ " and "
              ++ par (any_of (map body_has [".php"; ".exe"; ".sh"; ".bat"])))])));
  ("enabled", JBool true) ].

Definition rule4 : json := JObj [
  ("action", JStr "block");
  ("description", JStr "Block signups from high-risk countries while allowing read access for LGBTQ+ users");
  ("expression", JStr (
     par ("ip.geoip.country in {"
          ++ String.concat " " (map q ["IR"; "AF"; "PK"; "IQ"; "UG"; "SA"; "RU"; "CN"; "KP"])
          ++ "}")
     ++ " and " ++ par (path_has "/api/auth/signup")));
  ("enabled", JBool true) ].

Definition rule5 : json := JObj [
  ("action", JStr "skip");
  ("action_parameters", JObj [("ruleset", JStr "current")]);
  ("description", JStr "Whitelist your development IP and trusted services (UPDATE WITH YOUR IP)");
  ("expression", JStr ("(ip.src in {1.2.3.4}) or " ++ ua "UptimeRobot"));
  ("enabled", JBool false) ].

Definition SECURITY_RULES : list json := [rule1; rule2; rule3; rule4; rule5].

(** The table of [configure_security_settings]: (setting, value, message). *)
Definition settings : list (string * string * string) := [
  ("security_level", "medium", "Security level set to Medium");
  ("browser_check", "on", "Browser Integrity Check enabled");
  ("always_use_https", "on", "Always Use HTTPS enabled");
  ("min_tls_version", "1.2", "Minimum TLS version set to 1.2");
  ("tls_1_3", "on", "TLS 1.3 enabled") ].

(** ** The script, over an arbitrary provider *)

Section Script.

(** The provider: its state and how it answers one request. *)
Variable W : Type.
Variable provider : W -> Request -> HttpOutcome * W.

(** Python's [str()] on a decoded value, used where a value is pasted into
    a URL. *)
Variable py_str : json -> string.

(** The two configuration constants the operator edits. *)
Variable CLOUDFLARE_API_TOKEN : string.
Variable ZONE_ID : string.

Record St : Type := mkSt {
  world : W;
  stdin : list StdinEvent
}.

(** One run of a piece of the script: how it ended, the state it left, and
    the events it produced, oldest first. *)
#[projections(primitive)]
Record Run (A : Type) : Type := mkRun {
  res : Res A;
  final : St;
  events : list Event
}.
Arguments mkRun {A} res final events.
Arguments res {A} r.
Arguments final {A} r.
Arguments events {A} r.

Definition M (A : Type) : Type := St -> Run A.

Definition ret {A} (a : A) : M A := fun s => mkRun (Ok a) s [].

Definition raise {A} (e : exn) : M A := fun s => mkRun (Raise e) s [].

Definition bind {A B} (m : M A) (k : A -> M B) : M B :=
  fun s =>
    let r := m s in
    match res r with
    | Ok a => let r' := k a (final r) in
              mkRun (res r') (final r') (events r ++ events r')
    | Raise e => mkRun (Raise e) (final r) (events r)
    end.

(** [try: m  except <those e with handles e = Some h>: h]. *)
Definition try_except {A} (m : M A) (handles : exn -> option (M A)) : M A :=
  fun s =>
    let r := m s in
    match res r with
    | Ok a => r
    | Raise e =>
        match handles e with
        | Some h => let r' := h (final r) in
                    mkRun (res r') (final r') (events r ++ events r')
        | None => r
        end
    end.

(** [except Exception as e: h e] *)
Definition except_Exception {A} (h : exn -> M A) (e : exn) : option (M A) :=
  if is_Exception e then Some (h e) else None.

(** A bare [except: h] *)
Definition except_all {A} (h : M A) (e : exn) : option (M A) := Some h.

Definition lift {A} (r : Res A) : M A :=
  match r with
  | Ok a => ret a
  | Raise e => raise e
  end.

(** [print(line)]: the line is written whole or, when its text cannot be
    encoded, not at all. *)
Definition print (line : list piece) : M unit :=
  fun s =>
    if printable line then mkRun (Ok tt) s [EPrint line]
    else mkRun (Raise UnicodeEncodeError) s [].

Definition input (prompt : string) : M string :=
  fun s =>
    match stdin s with
    | [] => mkRun (Raise EOFError) s [EPrompt prompt]
    | Line l :: rest => mkRun (Ok l) (mkSt (world s) rest) [EPrompt prompt]
    | CtrlC :: rest =>
        mkRun (Raise KeyboardInterrupt) (mkSt (world s) rest) [EPrompt prompt]
    end.

Definition sys_exit {A} (code : Z) : M A := raise (SystemExit code).

(** [requests.<method>(url, headers=headers, json=data)]; the result is the
    decoded body of the response, if it decodes. *)
Definition requests (m : Method) (url : string)
    (headers : list (string * string)) (data : option json)
  : M (option json) :=
  fun s =>
    let rq := mkRequest m url headers data in
    let '(o, w') := provider (world s) rq in
    let s' := mkSt w' (stdin s) in
    match o with
    | Responded body => mkRun (Ok body) s' [EHttp rq o]
    | TransportFailure => mkRun (Raise RequestException) s' [EHttp rq o]
    | Interrupted => mkRun (Raise KeyboardInterrupt) s' [EHttp rq o]
    end.

(** [response.json()] *)
Definition response_json (body : option json) : M json :=
  match body with
  | Some j => ret j
  | None => raise JSONDecodeError
  end.

Notation "x <- c1 ;; c2" := (bind c1 (fun x => c2))
  (at level 61, c1 at next level, right associativity).
Notation "c1 ;; c2" := (bind c1 (fun _ => c2))
  (at level 61, right associativity).

(** [for i, x in enumerate(l, i0): body i x] *)
Fixpoint for_enumerate {A} (i0 : Z) (l : list A) (body : Z -> A -> M unit)
  : M unit :=
  match l with
  | [] => ret tt
  | x :: rest => body i0 x ;; for_enumerate (i0 + 1)%Z rest body
  end.

(** [for x in l: body x] *)
Fixpoint for_each {A} (l : list A) (body : A -> M unit) : M unit :=
  match l with
  | [] => ret tt
  | x :: rest => body x ;; for_each rest body
  end.

(** *** Helper function *)

Definition make_request (endpoint : string) (method : string)
    (data : option json) : M json :=
  let headers := [("Authorization", "Bearer " ++ CLOUDFLARE_API_TOKEN);
                  ("Content-Type", "application/json")] in
  let url := API_BASE ++ endpoint in
  response <-
    (if method =? "GET" then requests GET url headers None
     else if method =? "POST" then requests POST url headers data
     else if method =? "PUT" then requests PUT url headers data
     else if method =? "PATCH" then requests PATCH url headers data
     else if method =? "DELETE" then requests DELETE url headers None
     else raise UnboundLocalError (* [response] was never assigned *)) ;;
  result <- response_json response ;;
  success <- lift (py_get result "success" JNull) ;;
  if negb (truthy success)
  then errors <- lift (py_get result "errors" JNull) ;;
       raise (APIError errors)
  else ret result.

(** *** Main functions *)

Definition entrypoint : string :=
  "/zones/" ++ ZONE_ID
  ++ "/rulesets/phases/http_request_firewall_custom/entrypoint".

Definition list_existing_rules : M unit :=
  print [T ("📋 Listing existing security rules..." ++ nl)] ;;
  try_except
    (result <- make_request entrypoint "GET" None ;;
     r <- lift (py_get result "result" JNull) ;;
     (* [a and b]: [b] is evaluated only when [a] is true *)
     c <- (if truthy r
           then r' <- lift (py_subscript result "result") ;;
                lift (py_get r' "rules" JNull)
           else ret r) ;;
     if truthy c
     then r1 <- lift (py_subscript result "result") ;;
          rules <- lift (py_subscript r1 "rules") ;;
          n <- lift (py_len rules) ;;
          print [T "Found "; V (JNum n); T (" existing rules:" ++ nl)] ;;
          items <- lift (py_iter rules) ;;
          for_enumerate 1 items (fun i rule =>
            d <- lift (py_get rule "description" (JStr "Unnamed rule")) ;;
            print [V (JNum i); T ". "; V d] ;;
            a <- lift (py_get rule "action" JNull) ;;
            print [T "   Action: "; V a] ;;
            e <- lift (py_get rule "enabled" JNull) ;;
            print [T "   Enabled: "; V e] ;;
            print [])
     else print [T ("No existing rules found." ++ nl)])
    (except_Exception (fun e =>
       print [T "❌ Failed to list rules: "; X e; T nl])).

Definition delete_all_rules : M unit :=
  print [T ("🗑️  Deleting all existing security rules..." ++ nl)] ;;
  try_except
    (_ <- make_request entrypoint "PUT" (Some (JObj [("rules", JArr [])])) ;;
     print [T ("✅ All rules deleted!" ++ nl)])
    (except_Exception (fun e =>
       print [T "❌ Failed to delete rules: "; X e; T nl])).

(** The endpoint a rule is POSTed to, given [ruleset_id] ([None] as
    [JNull]). *)
Definition rules_endpoint (ruleset_id : json) : string :=
  if truthy ruleset_id
  then "/zones/" ++ ZONE_ID ++ "/rulesets/" ++ py_str ruleset_id ++ "/rules"
  else entrypoint.

Definition add_rule (ruleset_id : json) (i : Z) (rule : json) : M unit :=
  try_except
    (d <- lift (py_subscript rule "description") ;;
     d60 <- lift (match d with
                  | JStr s => Ok (JStr (slice_to 60 s))
                  | JArr l => Ok (JArr (firstn 60 l))
                  | _ => Raise TypeError
                  end) ;;
     print [T "📝 Adding Rule "; V (JNum i); T "/5: "; V d60; T "..."] ;;
     _ <- make_request (rules_endpoint ruleset_id) "POST" (Some rule) ;;
     print [T ("   ✅ Success!" ++ nl)])
    (except_Exception (fun e =>
       print [T "   ❌ Failed: "; X e; T nl])).

Definition add_security_rules : M unit :=
  print [T ("🔥 Adding Cloudflare Security Rules..." ++ nl)] ;;
  (* Get existing ruleset *)
  ruleset_id <-
    try_except
      (result <- make_request entrypoint "GET" None ;;
       r <- lift (py_subscript result "result") ;;
       lift (py_subscript r "id"))
      (except_all (ret JNull)) ;;
  for_enumerate 1 SECURITY_RULES (add_rule ruleset_id) ;;
  print [T ("✅ All security rules added!" ++ nl)].

Definition set_setting (row : string * string * string) : M unit :=
  let '(setting, value, message) := row in
  try_except
    (_ <- make_request ("/zones/" ++ ZONE_ID ++ "/settings/" ++ setting)
            "PATCH" (Some (JObj [("value", JStr value)])) ;;
     print [T "✅ "; T message])
    (except_Exception (fun e =>
       print [T "❌ Failed to set "; T setting; T ": "; X e])).

Definition configure_security_settings : M unit :=
  print [T ("🔐 Configuring security settings..." ++ nl)] ;;
  for_each settings set_setting ;;
  print [].

Definition bar : string :=
  "═══════════════════════════════════════════════════════════════".

Definition main (args : list string) : M unit :=
  print [T nl] ;;
  print [T bar] ;;
  print [T "🏳️‍🌈  PRYDE SOCIAL - CLOUDFLARE SECURITY SETUP"] ;;
  print [T bar] ;;
  print [T nl] ;;
  (* Validate configuration *)
  (if (CLOUDFLARE_API_TOKEN =? "YOUR_API_TOKEN_HERE")
      || (ZONE_ID =? "YOUR_ZONE_ID_HERE")
   then
     print [T ("❌ ERROR: Please update CLOUDFLARE_API_TOKEN and ZONE_ID in the script!" ++ nl)] ;;
     print [T "📝 Instructions:"] ;;
     print [T "1. Get API Token: https://dash.cloudflare.com/profile/api-tokens"] ;;
     print [T ("2. Get Zone ID: https://dash.cloudflare.com (select your domain)" ++ nl)] ;;
     sys_exit 1
   else ret tt) ;;
  (* Parse command line arguments *)
  if py_in "--list" args then
    list_existing_rules
  else if py_in "--delete" args then
    list_existing_rules ;;
    confirm <- input "⚠️  Are you sure you want to delete ALL rules? (yes/no): " ;;
    if lower confirm =? "yes"
    then delete_all_rules
    else print [T ("Cancelled." ++ nl)]
  else if py_in "--setup" args then
    list_existing_rules ;;
    print [T "⚠️  WARNING: This will add 5 new security rules to your Cloudflare account."] ;;
    print [T ("   If you already have rules, you may exceed the free plan limit (5 rules)." ++ nl)] ;;
    (if negb (py_in "--force" args)
     then confirm <- input "Continue? (yes/no): " ;;
          if negb (lower confirm =? "yes")
          then print [T ("Cancelled." ++ nl)] ;; sys_exit 0
          else ret tt
     else ret tt) ;;
    (* Delete existing rules if requested *)
    (if py_in "--delete" args then delete_all_rules else ret tt) ;;
    (* Add security rules *)
    add_security_rules ;;
    (* Configure security settings *)
    configure_security_settings ;;
    print [T bar] ;;
    print [T "✅  SETUP COMPLETE!"] ;;
    print [T bar] ;;
    print [T nl] ;;
    print [T "🎯 Next Steps:"] ;;
    print [T "1. Visit https://dash.cloudflare.com and verify the rules"] ;;
    print [T "2. Test your website to ensure no false positives"] ;;
    print [T "3. Monitor Security → Events for blocked traffic"] ;;
    print [T ("4. Update Rule 5 with your development IP address" ++ nl)]
  else
    print [T "Usage:"] ;;
    print [T "  python cloudflare-setup.py --list              # List existing rules"] ;;
    print [T "  python cloudflare-setup.py --delete            # Delete all existing rules"] ;;
    print [T "  python cloudflare-setup.py --setup             # Add all security rules"] ;;
    print [T "  python cloudflare-setup.py --setup --delete    # Delete old rules and add new ones"] ;;
    print [T ("  python cloudflare-setup.py --setup --force     # Skip confirmation prompts" ++ nl)].

(** The [if __name__ == '__main__':] block. *)
Definition script (args : list string) : M unit :=
  try_except (main args)
    (fun e =>
       match e with
       | KeyboardInterrupt =>
           Some (print [T (nl ++ nl ++ "❌ Cancelled by user." ++ nl)] ;;
                 sys_exit 0)
       | _ =>
           except_Exception (fun e =>
             print [T (nl ++ "❌ Fatal error: "); X e; T nl] ;;
             sys_exit 1) e
       end).

(** The exit status of the interpreter: 0 when the script runs off its
    end, the code of a [SystemExit], 130 for a [KeyboardInterrupt] nobody
    caught and 1 for any other exception that reaches the top. *)
Definition exit_status {A} (r : Res A) : Z :=
  match r with
  | Ok _ => 0
  | Raise (SystemExit code) => code
  | Raise KeyboardInterrupt => 130
  | Raise _ => 1
  end.

(** One run of the program from the shell. *)
Definition run (args : list string) (w : W) (keys : list StdinEvent)
  : Run unit :=
  script args (mkSt w keys).

End Script.

Arguments mkSt {W} world stdin.
Arguments world {W} s.
Arguments stdin {W} s.
Arguments mkRun {W A} res final events.
Arguments res {W A} r.
Arguments final {W A} r.
Arguments events {W A} r.
Arguments exit_status {A} r.
Arguments ret {W A} a.
Arguments raise {W A} e.
Arguments bind {W A B} m k.
Arguments try_except {W A} m handles.
Arguments except_Exception {W A} h e.
Arguments except_all {W A} h e.
Arguments lift {W A} r.
Arguments print {W} line.
Arguments input {W} prompt.
Arguments sys_exit {W A} code.
Arguments requests {W} provider m url headers data.
Arguments response_json {W} body.
Arguments for_enumerate {W A} i0 l body.
Arguments for_each {W A} l body.
Arguments make_request {W} provider CLOUDFLARE_API_TOKEN endpoint method data.
Arguments list_existing_rules {W} provider CLOUDFLARE_API_TOKEN ZONE_ID.
Arguments delete_all_rules {W} provider CLOUDFLARE_API_TOKEN ZONE_ID.
Arguments add_rule {W} provider py_str CLOUDFLARE_API_TOKEN ZONE_ID ruleset_id i rule.
Arguments add_security_rules {W} provider py_str CLOUDFLARE_API_TOKEN ZONE_ID.
Arguments set_setting {W} provider CLOUDFLARE_API_TOKEN ZONE_ID row.
Arguments configure_security_settings {W} provider CLOUDFLARE_API_TOKEN ZONE_ID.
Arguments main {W} provider py_str CLOUDFLARE_API_TOKEN ZONE_ID args.
Arguments script {W} provider py_str CLOUDFLARE_API_TOKEN ZONE_ID args.
Arguments run {W} provider py_str CLOUDFLARE_API_TOKEN ZONE_ID args w keys.

(** ** Reading a trace *)

Definition http_requests (t : list Event) : list Request :=
  flat_map (fun e => match e with EHttp rq _ => [rq] | _ => [] end) t.

Definition printed (t : list Event) : list (list piece) :=
  flat_map (fun e => match e with EPrint l => [l] | _ => [] end) t.

(** A call that can change the zone: anything but GET. *)
Definition mutating (rq : Request) : bool :=
  match rq_method rq with
  | GET => false
  | _ => true
  end.

Definition entrypoint_url (zone : string) : string :=
  API_BASE ++ entrypoint zone.

(** The headers [make_request] sends. *)
Definition auth_headers (token : string) : list (string * string) :=
  [("Authorization", "Bearer " ++ token);
   ("Content-Type", "application/json")].

Definition method_name (m : Method) : string :=
  match m with
  | GET => "GET"
  | POST => "POST"
  | PUT => "PUT"
  | PATCH => "PATCH"
  | DELETE => "DELETE"
  end.

(** The request [make_request endpoint (method_name m) data] sends: GET and
    DELETE carry no body. *)
Definition request_of (token : string) (m : Method) (endpoint : string)
    (data : option json) : Request :=
  mkRequest m (API_BASE ++ endpoint) (auth_headers token)
    (match m with
     | GET | DELETE => None
     | _ => data
     end).

(** What [make_request] makes of the outcome of its one call; see
    [make_request_run]. *)
Definition outcome_result (o : HttpOutcome) : Res json :=
  match o with
  | Responded (Some j) =>
      match py_get j "success" JNull with
      | Ok success =>
          if truthy success then Ok j
          else match py_get j "errors" JNull with
               | Ok errors => Raise (APIError errors)
               | Raise e => Raise e
               end
      | Raise e => Raise e
      end
  | Responded None => Raise JSONDecodeError
  | TransportFailure => Raise RequestException
  | Interrupted => Raise KeyboardInterrupt
  end.

(** ** Concrete providers *)

(** A provider that replays a fixed list of outcomes, one per call, and
    fails at the transport once the list is used up. *)
Definition scripted (w : list HttpOutcome) (rq : Request)
  : HttpOutcome * list HttpOutcome :=
  match w with
  | [] => (TransportFailure, [])
  | o :: rest => (o, rest)
  end.

Definition ok_body (result : json) : json :=
  JObj [("success", JBool true); ("errors", JArr []); ("result", result)].

Definition error_body (errors : json) : json :=
  JObj [("success", JBool false); ("errors", errors); ("result", JNull)].

(** A zone that keeps one custom-firewall ruleset, with id [rs1]: GET of
    the entrypoint returns it, PUT of the entrypoint replaces its rules by
    those of the body, POST of a rule to [rulesets/rs1/rules] appends it;
    anything else is an API error. *)
Definition zone_model (zone : string) (rules : list json) (rq : Request)
  : HttpOutcome * list json :=
  let ruleset rs := JObj [("id", JStr "rs1"); ("rules", JArr rs)] in
  let refuse :=
    (Responded (Some (error_body (JArr [JStr "unsupported"]))), rules) in
  if rq_url rq =? entrypoint_url zone then
    match rq_method rq, rq_json rq with
    | GET, _ => (Responded (Some (ok_body (ruleset rules))), rules)
    | PUT, Some body =>
        match py_get body "rules" JNull with
        | Ok (JArr rs) => (Responded (Some (ok_body (ruleset rs))), rs)
        | _ => refuse
        end
    | _, _ => refuse
    end
  else if rq_url rq =? API_BASE ++ "/zones/" ++ zone ++ "/rulesets/rs1/rules"
  then
    match rq_method rq, rq_json rq with
    | POST, Some rule =>
        (Responded (Some (ok_body (ruleset (rules ++ [rule])%list))),
         (rules ++ [rule])%list)
    | _, _ => refuse
    end
  else refuse.

(** [str()] on the scalars that occur as ruleset ids in the examples. *)
Definition str_of_scalar (v : json) : string :=
  match v with
  | JStr s => s
  | JNull => "None"
  | JBool true => "True"
  | JBool false => "False"
  | _ => ""
  end.

Definition demo_token : string := "cf-api-token".
Definition demo_zone : string := "023e105f4ecef8ad9ca31a8372d0c353".

Definition old_rule : json := JObj [
  ("action", JStr "block");
  ("description", JStr "An older rule");
  ("expression", JStr "(cf.threat_score gt 50)");
  ("enabled", JBool true) ].

Definition ok_response : HttpOutcome :=
  Responded (Some (ok_body (JObj [("id", JStr "rs1"); ("rules", JArr [])]))).

Definition refused_response : HttpOutcome :=
  Responded (Some (error_body (JArr [JStr "rule limit exceeded"]))).

(** The lone surrogate U+D83D, as [json] decodes the escape [\ud83d], and
    a refusal whose [errors] is that one-character string. *)
Definition lone_surrogate : string :=
  String (ascii_of_nat 237)
    (String (ascii_of_nat 160) (String (ascii_of_nat 189) EmptyString)).

Definition unprintable_refusal : HttpOutcome :=
  Responded (Some (error_body (JStr lone_surrogate))).

(** ** Vocabulary of the statements *)

Open Scope list_scope.

(** The requests of the listing GET and of the deleting PUT. *)
Definition list_request (token zone : string) : Request :=
  request_of token GET (entrypoint zone) None.

Definition delete_request (token zone : string) : Request :=
  request_of token PUT (entrypoint zone) (Some (JObj [("rules", JArr [])])).

Definition post_request (token target : string) (rule : json) : Request :=
  mkRequest POST target (auth_headers token) (Some rule).

Definition is_post (rq : Request) : bool :=
  match rq_method rq with
  | POST => true
  | _ => false
  end.

Definition is_print (e : Event) : bool :=
  match e with
  | EPrint _ => true
  | _ => false
  end.

(** Is this event the printing of the one literal line [l]? *)
Definition event_eqb_print (l : string) (e : Event) : bool :=
  match e with
  | EPrint [T s] => (s =? l)%string
  | _ => false
  end.

Definition interrupted (o : HttpOutcome) : bool :=
  match o with
  | Interrupted => true
  | _ => false
  end.

Definition valid_config (token zone : string) : Prop :=
  token <> "YOUR_API_TOKEN_HERE" /\ zone <> "YOUR_ZONE_ID_HERE".

(** A run with some earlier events put in front. *)
Definition prepend {W A} (t : list Event) (r : Run W A) : Run W A :=
  mkRun (res r) (final r) (t ++ events r).

(** A computation that only prints, and raises nothing but [Exception]s
    whose text can be printed. *)
Definition quiet {W A} (m : M W A) : Prop :=
  forall s, final (m s) = s
            /\ forallb is_print (events (m s)) = true
            /\ (forall e, res (m s) = Raise e ->
                is_Exception e = true /\ exn_encodable e = true).

(** A computation that ends normally, by Ctrl-C, or by a [print] that
    failed. *)
Definition calm {W A} (m : M W A) : Prop :=
  forall s e, res (m s) = Raise e ->
              e = KeyboardInterrupt \/ e = UnicodeEncodeError.


(** Can the failure of a call with outcome [o], if it is one, be written
    in a failure line?  It cannot when the response carries as [errors] a
    string that holds a lone surrogate. *)
Definition loggable (o : HttpOutcome) : bool :=
  match outcome_result o with
  | Ok _ => true
  | Raise e => exn_encodable e
  end.

(** A call after which the script goes on: it was not cut short by Ctrl-C,
    and its failure, if it is one, can be written. *)
Definition passes (o : HttpOutcome) : bool :=
  negb (interrupted o) && loggable o.

(** What leaves the script's [try] after a call that does not pass: the
    Ctrl-C, which [except Exception] does not catch, or the error of the
    [print] in the handler, which nothing guards. *)
Definition stopper (o : HttpOutcome) : exn :=
  if interrupted o then KeyboardInterrupt else UnicodeEncodeError.

(** How [try: make_request(...); K  except Exception as e: print(fail e)]
    ends, and what it prints after the call, given the call's outcome. *)
Definition guarded_result (o : HttpOutcome) : Res unit :=
  if passes o then Ok tt else Raise (stopper o).

Definition guarded_events {W} (K : json -> M W unit) (fail : exn -> list piece)
    (o : HttpOutcome) (s : St W) : list Event :=
  match outcome_result o with
  | Ok j => events (K j s)
            ++ match res (K j s) with
               | Ok _ => []
               | Raise e => [EPrint (fail e)]
               end
  | Raise e =>
      if is_Exception e && exn_encodable e then [EPrint (fail e)] else []
  end.

(** The same when [K] is one [print(done)]. *)
Definition report (done : list piece) (fail : exn -> list piece)
    (o : HttpOutcome) : list Event :=
  match outcome_result o with
  | Ok _ => [EPrint done]
  | Raise e =>
      if is_Exception e && exn_encodable e then [EPrint (fail e)] else []
  end.

(** [result['result']['id']] *)
Definition lookup_id (result : json) : Res json :=
  match py_subscript result "result" with
  | Ok r => py_subscript r "id"
  | Raise e => Raise e
  end.

(** The [ruleset_id] that [add_security_rules] ends up with, given the
    outcome of its GET: [None] when anything on the way fails. *)
Definition resolved_id (o : HttpOutcome) : json :=
  match outcome_result o with
  | Ok result =>
      match py_subscript result "result" with
      | Ok r => match py_subscript r "id" with
                | Ok id => id
                | Raise _ => JNull
                end
      | Raise _ => JNull
      end
  | Raise _ => JNull
  end.

Definition rules_url (py_str : json -> string) (zone : string) (id : json)
  : string :=
  (API_BASE ++ rules_endpoint py_str zone id)%string.

(** Where the rules go, given the outcome of the resolving GET. *)
Definition target_of (py_str : json -> string) (zone : string)
    (o : HttpOutcome) : string :=
  rules_url py_str zone (resolved_id o).

(** A rule whose "Adding Rule" line can be written: it has a description,
    a string whose first 60 characters can be printed. *)
Definition described (rule : json) : Prop :=
  exists d, py_subscript rule "description" = Ok (JStr d)
            /\ encodable (slice_to 60 d) = true.

(** The lines of the script, by name. *)
Definition banner : list Event :=
  [EPrint [T nl]; EPrint [T bar];
   EPrint [T "🏳️‍🌈  PRYDE SOCIAL - CLOUDFLARE SECURITY SETUP"];
   EPrint [T bar]; EPrint [T nl]].

Definition instructions : list Event :=
  [EPrint [T ("❌ ERROR: Please update CLOUDFLARE_API_TOKEN and ZONE_ID in the script!" ++ nl)];
   EPrint [T "📝 Instructions:"];
   EPrint [T "1. Get API Token: https://dash.cloudflare.com/profile/api-tokens"];
   EPrint [T ("2. Get Zone ID: https://dash.cloudflare.com (select your domain)" ++ nl)]].

Definition listing_header : list piece :=
  [T ("📋 Listing existing security rules..." ++ nl)].
Definition no_rules_line : list piece :=
  [T ("No existing rules found." ++ nl)].
Definition deleting_header : list piece :=
  [T ("🗑️  Deleting all existing security rules..." ++ nl)].
Definition deleted_line : list piece :=
  [T ("✅ All rules deleted!" ++ nl)].
Definition adding_header : list piece :=
  [T ("🔥 Adding Cloudflare Security Rules..." ++ nl)].
Definition adding_footer : list piece :=
  [T ("✅ All security rules added!" ++ nl)].
Definition added_line : list piece := [T ("   ✅ Success!" ++ nl)].
Definition failed_line (e : exn) : list piece :=
  [T "   ❌ Failed: "; X e; T nl].
Definition cancelled : Event := EPrint [T ("Cancelled." ++ nl)].
Definition cancelled_by_user : Event :=
  EPrint [T (nl ++ nl ++ "❌ Cancelled by user." ++ nl)].

Definition adding_line (i : Z) (rule : json) : list piece :=
  [T "📝 Adding Rule "; V (JNum i); T "/5: ";
   V (match py_subscript rule "description" with
      | Ok (JStr d) => JStr (slice_to 60 d)
      | _ => JNull
      end);
   T "..."].

(** The events of one turn of the loop of [add_security_rules], and of the
    whole loop, given the outcomes of the POSTs. *)
Definition add_rule_events (token target : string) (i : Z) (rule : json)
    (o : HttpOutcome) : list Event :=
  EPrint (adding_line i rule)
  :: EHttp (post_request token target rule) o
  :: report added_line failed_line o.

Fixpoint add_loop_events (token target : string) (i : Z) (rules : list json)
    (os : list HttpOutcome) : list Event :=
  match rules, os with
  | rule :: rules', o :: os' =>
      add_rule_events token target i rule o
      ++ add_loop_events token target (i + 1) rules' os'
  | _, _ => []
  end.

(** The provider laws of the delete-then-list property: PUT of a rule list
    to the entrypoint succeeds and makes it the zone's ruleset, and the
    listing GET succeeds, changes nothing and returns the current ruleset. *)
Definition put_replaces {W} (provider : W -> Request -> HttpOutcome * W)
    (token zone : string) (rules_of : W -> list json) : Prop :=
  forall w rs,
    let ow := provider w (request_of token PUT (entrypoint zone)
                            (Some (JObj [("rules", JArr rs)]))) in
    (exists j, outcome_result (fst ow) = Ok j) /\ rules_of (snd ow) = rs.

Definition get_returns_current {W} (provider : W -> Request -> HttpOutcome * W)
    (token zone : string) (rules_of : W -> list json) : Prop :=
  forall w,
    let ow := provider w (list_request token zone) in
    rules_of (snd ow) = rules_of w /\
    exists j r,
      fst ow = Responded (Some j)
      /\ py_get j "success" JNull = Ok (JBool true)
      /\ py_get j "result" JNull = Ok r
      /\ py_get r "rules" JNull = Ok (JArr (rules_of w)).

(** The outcomes a provider gives to a list of requests made one after the
    other from the world [w], and the world it ends in. *)
Fixpoint outcomes_of {W} (provider : W -> Request -> HttpOutcome * W)
    (w : W) (rqs : list Request) : list HttpOutcome * W :=
  match rqs with
  | [] => ([], w)
  | rq :: rest =>
      let ow := provider w rq in
      let r := outcomes_of provider (snd ow) rest in
      (fst ow :: fst r, snd r)
  end.

(** The outcomes of the five POSTs of [add_security_rules] started in [s],
    if none of them ends the loop: the POSTs follow the resolving GET. *)
Definition post_outcomes {W} (provider : W -> Request -> HttpOutcome * W)
    (py_str : json -> string) (token zone : string) (s : St W)
  : list HttpOutcome * W :=
  let ow := provider (world s) (list_request token zone) in
  outcomes_of provider (snd ow)
    (map (post_request token (target_of py_str zone (fst ow))) SECURITY_RULES).

(** No POST of [add_security_rules] started in [s] ends the loop: none is
    cut short by Ctrl-C, and none fails with a text that cannot be
    printed. *)
Definition posts_complete {W} (provider : W -> Request -> HttpOutcome * W)
    (py_str : json -> string) (token zone : string) (s : St W) : Prop :=
  Forall (fun o => passes o = true)
    (fst (post_outcomes provider py_str token zone s)).

(** ** Vocabulary of the further properties *)

(** [kv.get(k, default)] on the pairs of a dict. *)
Definition dict_get (k : string) (default : json) (kv : list (string * json))
  : json :=
  match dict_lookup k kv with
  | Some v => v
  | None => default
  end.

(** The lines [list_existing_rules] prints for the [i]-th rule, and for a
    list of rules counted from [i]. *)
Definition rule_lines (i : Z) (kv : list (string * json))
  : list (list piece) :=
  [[V (JNum i); T ". "; V (dict_get "description" (JStr "Unnamed rule") kv)];
   [T "   Action: "; V (dict_get "action" JNull kv)];
   [T "   Enabled: "; V (dict_get "enabled" JNull kv)];
   []].

Fixpoint listing_lines (i : Z) (kvs : list (list (string * json)))
  : list (list piece) :=
  match kvs with
  | [] => []
  | kv :: rest => rule_lines i kv ++ listing_lines (i + 1) rest
  end.

Definition found_line (n : nat) : list piece :=
  [T "Found "; V (JNum (Z.of_nat n)); T (" existing rules:" ++ nl)].

Definition listing_failed_line (e : exn) : list piece :=
  [T "❌ Failed to list rules: "; X e; T nl].

Definition delete_failed_line (e : exn) : list piece :=
  [T "❌ Failed to delete rules: "; X e; T nl].

(** The PATCH of one row of [settings], and the lines about it. *)
Definition setting_request (token zone : string)
    (row : string * string * string) : Request :=
  request_of token PATCH
    ("/zones/" ++ zone ++ "/settings/" ++ fst (fst row))%string
    (Some (JObj [("value", JStr (snd (fst row)))])).

Definition setting_done_line (row : string * string * string) : list piece :=
  [T "✅ "; T (snd row)].

Definition setting_failed_line (row : string * string * string) (e : exn)
  : list piece :=
  [T "❌ Failed to set "; T (fst (fst row)); T ": "; X e].

Definition setting_events (token zone : string)
    (row : string * string * string) (o : HttpOutcome) : list Event :=
  EHttp (setting_request token zone row) o
  :: report (setting_done_line row) (setting_failed_line row) o.

Fixpoint settings_loop_events (token zone : string)
    (rows : list (string * string * string)) (os : list HttpOutcome)
  : list Event :=
  match rows, os with
  | row :: rows', o :: os' =>
      setting_events token zone row o
      ++ settings_loop_events token zone rows' os'
  | _, _ => []
  end.

(** A row of the table whose two lines can be written. *)
Definition plain_row (row : string * string * string) : Prop :=
  encodable (fst (fst row)) = true /\ encodable (snd row) = true.

Definition configuring_header : list piece :=
  [T ("🔐 Configuring security settings..." ++ nl)].

(** The outcomes of the five PATCHes of [configure_security_settings]
    started in [s], if none of them ends the loop. *)
Definition patch_outcomes {W} (provider : W -> Request -> HttpOutcome * W)
    (token zone : string) (s : St W) : list HttpOutcome * W :=
  outcomes_of provider (world s) (map (setting_request token zone) settings).

Definition patches_complete {W} (provider : W -> Request -> HttpOutcome * W)
    (token zone : string) (s : St W) : Prop :=
  Forall (fun o => passes o = true)
    (fst (patch_outcomes provider token zone s)).

(** The summary that ends [--setup], and the usage text. *)
Definition summary : list Event :=
  [EPrint [T bar]; EPrint [T "✅  SETUP COMPLETE!"]; EPrint [T bar];
   EPrint [T nl];
   EPrint [T "🎯 Next Steps:"];
   EPrint [T "1. Visit https://dash.cloudflare.com and verify the rules"];
   EPrint [T "2. Test your website to ensure no false positives"];
   EPrint [T "3. Monitor Security → Events for blocked traffic"];
   EPrint [T ("4. Update Rule 5 with your development IP address" ++ nl)]].

Definition usage : list Event :=
  [EPrint [T "Usage:"];
   EPrint [T "  python cloudflare-setup.py --list              # List existing rules"];
   EPrint [T "  python cloudflare-setup.py --delete            # Delete all existing rules"];
   EPrint [T "  python cloudflare-setup.py --setup             # Add all security rules"];
   EPrint [T "  python cloudflare-setup.py --setup --delete    # Delete old rules and add new ones"];
   EPrint [T ("  python cloudflare-setup.py --setup --force     # Skip confirmation prompts" ++ nl)]].

Definition delete_prompt : string :=
  "⚠️  Are you sure you want to delete ALL rules? (yes/no): ".

Definition setup_prompt : string := "Continue? (yes/no): ".

Definition is_prompt (e : Event) : bool :=
  match e with
  | EPrompt _ => true
  | _ => false
  end.

Definition fatal_line (e : exn) : Event :=
  EPrint [T (nl ++ "❌ Fatal error: "); X e; T nl].

(** What the [__main__] block makes of a run [m] of [main]: it lets a
    normal end and a [SystemExit] through, answers a [KeyboardInterrupt]
    with the cancellation message and [sys.exit(0)], and any other
    exception with the "Fatal error" line, if that can be written, and
    [sys.exit(1)]. *)
Definition at_top {W} (m : Run W unit) : Run W unit :=
  match res m with
  | Ok _ | Raise (SystemExit _) => m
  | Raise KeyboardInterrupt =>
      mkRun (Raise (SystemExit 0)) (final m) (events m ++ [cancelled_by_user])
  | Raise e =>
      if exn_encodable e
      then mkRun (Raise (SystemExit 1)) (final m) (events m ++ [fatal_line e])
      else mkRun (Raise UnicodeEncodeError) (final m) (events m)
  end.

(** A computation that takes at most [n] entries off the keyboard queue. *)
Definition reads {W A} (n : nat) (m : M W A) : Prop :=
  forall s, exists k, (k <= n)%nat /\ stdin (final (m s)) = skipn k (stdin s).

(** A computation all of whose HTTP requests satisfy [P]. *)
Definition calls {W A} (P : Request -> Prop) (m : M W A) : Prop :=
  forall s, Forall P (http_requests (events (m s))).

(** A request whose headers are the bearer token and the JSON content
    type, and whose url, as a string, starts with the address of the
    configured zone. *)
Definition to_the_zone (token zone : string) (rq : Request) : Prop :=
  rq_headers rq =
    [("Authorization", ("Bearer " ++ token)%string);
     ("Content-Type", "application/json")]
  /\ String.prefix (API_BASE ++ "/zones/" ++ zone ++ "/")%string (rq_url rq)
     = true.

(** The lines of a list that get written when they are printed one after
    the other: those before the first that cannot be. *)
Fixpoint shown (lines : list (list piece)) : list (list piece) :=
  match lines with
  | [] => []
  | l :: rest => if printable l then l :: shown rest else []
  end.

(** A provider none of whose answers ends a loop of the script: no call
    is cut short by Ctrl-C, no failure has a text that cannot be
    printed. *)
Definition always_passes {W} (provider : W -> Request -> HttpOutcome * W)
  : Prop :=
  forall w rq, passes (fst (provider w rq)) = true.
(** * Properties *)

Section Correctness.

Variable W : Type.
Variable provider : W -> Request -> HttpOutcome * W.
Variable py_str : json -> string.
Variable token : string.
Variable zone : string.

(** ** The request helper *)

(** [make_request] is one call to the provider, and [outcome_result] of
    its outcome. *)
Lemma make_request_run (m : Method) (endpoint : string) (data : option json)
    (s : St W) :
  make_request provider token endpoint (method_name m) data s =
  let rq := request_of token m endpoint data in
  let ow := provider (world s) rq in
  mkRun (outcome_result (fst ow)) (mkSt (snd ow) (stdin s)) [EHttp rq (fst ow)].
Proof.
  unfold make_request, request_of, auth_headers.
  destruct m; cbn [method_name String.eqb Ascii.eqb Bool.eqb];
    unfold bind, requests; cbn [world stdin];
    match goal with |- context [provider ?w ?r] => destruct (provider w r) as [o w'] end;
    destruct o as [[j|]| |]; cbn; try reflexivity.
  all: destruct j; cbn; try reflexivity.
  all: destruct (dict_lookup "success" kv) as [v|]; cbn;
    try destruct (truthy v); cbn;
    try destruct (dict_lookup "errors" kv); reflexivity.
Qed.

Lemma outcome_result_exn (o : HttpOutcome) (e : exn) :
  outcome_result o = Raise e ->
  is_Exception e = negb (interrupted o).
Proof.
  destruct o as [[j|]| |]; cbn; try (intros [= <-]; reflexivity).
  destruct j; cbn; try (intros [= <-]; reflexivity).
  destruct (dict_lookup "success" kv) as [v|]; cbn.
  - destruct (truthy v); [discriminate|].
    destruct (dict_lookup "errors" kv); intros [= <-]; reflexivity.
  - destruct (dict_lookup "errors" kv); intros [= <-]; reflexivity.
Qed.

Lemma outcome_result_ok (o : HttpOutcome) (j : json) :
  outcome_result o = Ok j -> interrupted o = false.
Proof. destruct o; cbn; [reflexivity|discriminate..]. Qed.

Lemma print_run (l : list piece) (s : St W) :
  print l s =
  if printable l then mkRun (Ok tt) s [EPrint l]
  else mkRun (Raise UnicodeEncodeError) s [].
Proof. reflexivity. Qed.

Lemma passes_ok (o : HttpOutcome) (j : json) :
  outcome_result o = Ok j -> passes o = true.
Proof.
  intros H. unfold passes, loggable. rewrite H, (outcome_result_ok _ _ H).
  reflexivity.
Qed.

Lemma passes_exn (o : HttpOutcome) (e : exn) :
  outcome_result o = Raise e ->
  passes o = is_Exception e && exn_encodable e.
Proof.
  intros H. unfold passes, loggable.
  rewrite H, (outcome_result_exn _ _ H). reflexivity.
Qed.

Lemma stopper_exn (o : HttpOutcome) (e : exn) :
  outcome_result o = Raise e ->
  stopper o = if is_Exception e then UnicodeEncodeError else e.
Proof.
  intros H. unfold stopper. rewrite (outcome_result_exn _ _ H).
  destruct o as [[j|]| |]; cbn in *; try reflexivity. congruence.
Qed.

Lemma guarded_result_passes (o : HttpOutcome) :
  passes o = true -> guarded_result o = Ok tt.
Proof. unfold guarded_result. intros ->. reflexivity. Qed.

(** A call followed by printing, under [except Exception]: what gets out
    is a Ctrl-C, or the error of the handler's own [print]. *)
Lemma guarded_call_run (m : Method) (endpoint : string) (data : option json)
    (K : json -> M W unit) (fail : exn -> list piece) (s : St W) :
  (forall j, quiet (K j)) ->
  (forall e, printable (fail e) = exn_encodable e) ->
  try_except (bind (make_request provider token endpoint (method_name m) data) K)
    (except_Exception (fun e => print (fail e))) s =
  let rq := request_of token m endpoint data in
  let ow := provider (world s) rq in
  let s' := mkSt (snd ow) (stdin s) in
  mkRun (guarded_result (fst ow)) s'
    (EHttp rq (fst ow) :: guarded_events K fail (fst ow) s').
Proof.
  intros HK Hfail. unfold try_except, bind. rewrite make_request_run.
  cbn [res final events]. cbv zeta. unfold guarded_events, guarded_result.
  set (rq := request_of token m endpoint data).
  destruct (provider (world s) rq) as [o w']. cbn [fst snd].
  destruct (outcome_result o) as [j|e] eqn:Ho; cbn [res final events].
  - rewrite (passes_ok _ _ Ho).
    destruct (HK j (mkSt w' (stdin s))) as (Hf & _ & He).
    destruct (res (K j (mkSt w' (stdin s)))) as [[]|e] eqn:Hr.
    + rewrite Hf. rewrite app_nil_r. reflexivity.
    + destruct (He e eq_refl) as (Hx & Hp).
      unfold except_Exception. rewrite Hx, print_run, Hfail, Hp.
      cbn [res final events]. rewrite Hf. reflexivity.
  - rewrite (passes_exn _ _ Ho), (stopper_exn _ _ Ho).
    unfold except_Exception.
    destruct (is_Exception e); cbn [andb res final events]; [|reflexivity].
    rewrite print_run, Hfail.
    destruct (exn_encodable e); cbn [res final events];
      rewrite ?app_nil_r; reflexivity.
Qed.

(** The failure lines of the script: literal text around the exception. *)
Lemma printable_failure (before after : string) (e : exn) :
  encodable before = true -> encodable after = true ->
  printable [T before; X e; T after] = exn_encodable e.
Proof.
  intros Hb Ha. cbn. rewrite Hb, Ha, andb_true_r. reflexivity.
Qed.

(** *** Computations that only print *)

Lemma quiet_ret {A} (a : A) : quiet (@ret W A a).
Proof. intros s; cbn; repeat split; discriminate. Qed.

Lemma quiet_print (l : list piece) : quiet (@print W l).
Proof.
  intros s. rewrite print_run. destruct (printable l); cbn;
    (split; [reflexivity|split; [reflexivity|]]); intros e [= <-];
    split; reflexivity.
Qed.

Lemma quiet_lift {A} (r : Res A) :
  (forall e, r = Raise e -> is_Exception e = true /\ exn_encodable e = true) ->
  quiet (@lift W A r).
Proof.
  intros H s. destruct r as [a|e]; cbn;
    (split; [reflexivity|split; [reflexivity|]]); intros e' [= <-].
  apply (H e eq_refl).
Qed.

Lemma quiet_bind {A B} (m : M W A) (k : A -> M W B) :
  quiet m -> (forall a, quiet (k a)) -> quiet (bind m k).
Proof.
  intros Hm Hk s. unfold bind. destruct (Hm s) as (Hf & Hp & He).
  destruct (res (m s)) as [a|e] eqn:Hr; cbn.
  - destruct (Hk a (final (m s))) as (Hf' & Hp' & He').
    rewrite forallb_app, Hp, Hp', Hf'. rewrite Hf in He' |- *. auto.
  - split; [exact Hf|split; [exact Hp|]]. intros e' [= <-]. auto.
Qed.

Lemma quiet_for_enumerate {A} (body : Z -> A -> M W unit) (l : list A) :
  (forall i x, quiet (body i x)) -> forall i, quiet (for_enumerate i l body).
Proof.
  intros Hb. induction l as [|x l IH]; intros i; cbn.
  - apply quiet_ret.
  - apply quiet_bind; auto.
Qed.

Lemma py_get_exn v k d e :
  py_get v k d = Raise e -> is_Exception e = true /\ exn_encodable e = true.
Proof.
  destruct v; cbn; try (intros [= <-]; split; reflexivity).
  destruct (dict_lookup k kv); discriminate.
Qed.

Lemma py_subscript_exn v k e :
  py_subscript v k = Raise e ->
  is_Exception e = true /\ exn_encodable e = true.
Proof.
  destruct v; cbn; try (intros [= <-]; split; reflexivity).
  destruct (dict_lookup k kv); intros [= <-]; split; reflexivity.
Qed.

Lemma py_len_exn v e :
  py_len v = Raise e -> is_Exception e = true /\ exn_encodable e = true.
Proof. destruct v; cbn; intros [= <-]; split; reflexivity. Qed.

Lemma py_iter_exn v e :
  py_iter v = Raise e -> is_Exception e = true /\ exn_encodable e = true.
Proof. destruct v; cbn; intros [= <-]; split; reflexivity. Qed.

Create HintDb quiet.
Hint Resolve quiet_ret quiet_print py_get_exn py_subscript_exn py_len_exn
  py_iter_exn : quiet.

Ltac quiet_step :=
  match goal with
  | |- quiet (bind _ _) => apply quiet_bind; [|intro]
  | |- quiet (if ?b then _ else _) => destruct b
  | |- quiet (for_enumerate _ _ _) => apply quiet_for_enumerate; intros
  | |- quiet (lift _) => apply quiet_lift; eauto with quiet
  | |- quiet _ => solve [eauto with quiet]
  end.

Lemma guarded_events_prints (K : json -> M W unit) fail o s :
  (forall j, quiet (K j)) ->
  forallb is_print (guarded_events K fail o s) = true.
Proof.
  intros HK. unfold guarded_events.
  destruct (outcome_result o) as [j|e].
  - destruct (HK j s) as (_ & Hp & _). rewrite forallb_app, Hp.
    destruct (res (K j s)); reflexivity.
  - destruct (is_Exception e && exn_encodable e); reflexivity.
Qed.

(** *** The operations, one call each *)

Lemma bind_print {A} (l : list piece) (k : unit -> M W A) (s : St W) :
  printable l = true ->
  bind (print l) k s = prepend [EPrint l] (k tt s).
Proof. intros H. unfold bind. rewrite print_run, H. reflexivity. Qed.

Lemma bind_print_fails {A} (l : list piece) (k : unit -> M W A) (s : St W) :
  printable l = false ->
  bind (print l) k s = mkRun (Raise UnicodeEncodeError) s [].
Proof. intros H. unfold bind. rewrite print_run, H. reflexivity. Qed.

Lemma bind_ret {A B} (a : A) (k : A -> M W B) : bind (ret a) k = k a.
Proof. reflexivity. Qed.

Lemma bind_run {A B} (m : M W A) (k : A -> M W B) (s s' : St W) a t :
  m s = mkRun (Ok a) s' t -> bind m k s = prepend t (k a s').
Proof. intros E. unfold bind. rewrite E. reflexivity. Qed.

Lemma bind_run_raise {A B} (m : M W A) (k : A -> M W B) (s s' : St W) e t :
  m s = mkRun (Raise e) s' t -> bind m k s = mkRun (Raise e) s' t.
Proof. intros E. unfold bind. rewrite E. reflexivity. Qed.

Lemma try_print {A} (l : list piece) (m : M W A) h (s : St W) :
  printable l = true ->
  try_except (bind (print l) (fun _ => m)) h s =
  mkRun (res (try_except m h s)) (final (try_except m h s))
    (EPrint l :: events (try_except m h s)).
Proof.
  intros Hl. unfold try_except, bind. rewrite print_run, Hl.
  cbn [res final events app].
  destruct (res (m s)) eqn:Hr; cbn; rewrite ?Hr; [reflexivity|].
  destruct (h e); cbn; rewrite ?Hr; reflexivity.
Qed.

(** [list_existing_rules] is its header, one GET, and lines that depend
    on the response. *)
Lemma list_existing_rules_run (s : St W) :
  exists t, forallb is_print t = true /\
    list_existing_rules provider token zone s =
    let ow := provider (world s) (list_request token zone) in
    mkRun (guarded_result (fst ow)) (mkSt (snd ow) (stdin s))
      (EPrint [T ("📋 Listing existing security rules..." ++ nl)]
       :: EHttp (list_request token zone) (fst ow) :: t).
Proof.
  unfold list_existing_rules. rewrite bind_print by reflexivity.
  change "GET" with (method_name GET).
  rewrite guarded_call_run.
  - cbn [res final events]. eexists. split; [|reflexivity].
    apply guarded_events_prints. intros j. repeat quiet_step.
  - intros j. repeat quiet_step.
  - intros e. apply printable_failure; reflexivity.
Qed.

Lemma guarded_print (m : Method) (endpoint : string) (data : option json)
    (done : list piece) (fail : exn -> list piece) (s : St W) :
  printable done = true ->
  (forall e, printable (fail e) = exn_encodable e) ->
  try_except
    (bind (make_request provider token endpoint (method_name m) data)
          (fun _ => print done))
    (except_Exception (fun e => print (fail e))) s =
  let rq := request_of token m endpoint data in
  let ow := provider (world s) rq in
  mkRun (guarded_result (fst ow)) (mkSt (snd ow) (stdin s))
    (EHttp rq (fst ow) :: report done fail (fst ow)).
Proof.
  intros Hdone Hfail.
  rewrite guarded_call_run by (intros; (apply quiet_print || apply Hfail)).
  cbv zeta. unfold guarded_events, report.
  destruct (outcome_result _); [|reflexivity].
  rewrite print_run, Hdone. reflexivity.
Qed.

(** [delete_all_rules] is its header, one PUT, and one line. *)
Lemma delete_all_rules_run (s : St W) :
  delete_all_rules provider token zone s =
  let ow := provider (world s) (delete_request token zone) in
  mkRun (guarded_result (fst ow)) (mkSt (snd ow) (stdin s))
    (EPrint [T ("🗑️  Deleting all existing security rules..." ++ nl)]
     :: EHttp (delete_request token zone) (fst ow)
     :: report [T ("✅ All rules deleted!" ++ nl)]
          (fun e => [T "❌ Failed to delete rules: "; X e; T nl]) (fst ow)).
Proof.
  unfold delete_all_rules. rewrite bind_print by reflexivity.
  change "PUT" with (method_name PUT).
  rewrite guarded_print;
    [reflexivity | reflexivity | intros e; apply printable_failure; reflexivity].
Qed.

Lemma bind_ok {A B} (a : A) (k : A -> M W B) :
  bind (lift (Ok a)) k = k a.
Proof. reflexivity. Qed.

(** One turn of the loop of [add_security_rules], for a rule that has a
    description. *)
Lemma add_rule_run (id : json) (i : Z) (rule : json) (s : St W) :
  described rule ->
  add_rule provider py_str token zone id i rule s =
  let target := rules_url py_str zone id in
  let rq := mkRequest POST target (auth_headers token) (Some rule) in
  let ow := provider (world s) rq in
  mkRun (guarded_result (fst ow)) (mkSt (snd ow) (stdin s))
    (add_rule_events token target i rule (fst ow)).
Proof.
  intros (d & Hd & Henc). unfold add_rule, add_rule_events, adding_line.
  rewrite Hd, !bind_ok, try_print
    by (cbn [printable forallb piece_encodable str_encodable];
        rewrite Henc; reflexivity).
  change "POST" with (method_name POST).
  rewrite guarded_print;
    [reflexivity | reflexivity | intros e; apply printable_failure; reflexivity].
Qed.

(** The lookup of the ruleset id never raises: the bare [except:] catches
    everything, Ctrl-C included. *)
Lemma resolve_run (s : St W) :
  try_except
    (bind (make_request provider token (entrypoint zone) "GET" None)
       (fun result =>
          bind (lift (py_subscript result "result"))
            (fun r => lift (py_subscript r "id"))))
    (except_all (ret JNull)) s =
  let ow := provider (world s) (list_request token zone) in
  mkRun (Ok (resolved_id (fst ow))) (mkSt (snd ow) (stdin s))
    [EHttp (list_request token zone) (fst ow)].
Proof.
  unfold try_except, bind. change "GET" with (method_name GET).
  rewrite make_request_run. cbv zeta. cbn [res final events].
  unfold resolved_id, list_request.
  destruct (outcome_result _) as [result|e]; cbn [res final events];
    [|reflexivity].
  destruct (py_subscript result "result") as [r|e]; cbn; [|reflexivity].
  destruct (py_subscript r "id"); reflexivity.
Qed.

Lemma http_requests_app (t u : list Event) :
  http_requests (t ++ u) = http_requests t ++ http_requests u.
Proof. apply flat_map_app. Qed.

Lemma http_requests_report done fail o :
  http_requests (report done fail o) = [].
Proof.
  unfold report. destruct (outcome_result o) as [|e]; [reflexivity|].
  destruct (is_Exception e && exn_encodable e); reflexivity.
Qed.

Lemma http_requests_add_loop (target : string) (rules : list json) :
  forall (i : Z) (os : list HttpOutcome),
    length os = length rules ->
    http_requests (add_loop_events token target i rules os) =
    map (post_request token target) rules.
Proof.
  induction rules as [|rule rules IH]; intros i [|o os] Hlen;
    try discriminate; [reflexivity|].
  cbn [add_loop_events add_rule_events app].
  change (EPrint ?l :: EHttp ?rq ?o1 :: ?t ++ ?u)
    with ([EPrint l; EHttp rq o1] ++ t ++ u).
  rewrite !http_requests_app, http_requests_report, IH by (cbn in Hlen; lia).
  reflexivity.
Qed.

Lemma length_outcomes_of (rqs : list Request) :
  forall w, length (fst (outcomes_of provider w rqs)) = length rqs.
Proof.
  induction rqs as [|rq rqs IH]; intros w; cbn; [|rewrite IH]; reflexivity.
Qed.

(** The loop, when no POST ends it: every rule gets its turn. *)
Lemma add_loop_run (id : json) (rules : list json) :
  Forall described rules ->
  forall (i : Z) (s : St W),
    let target := rules_url py_str zone id in
    let ow := outcomes_of provider (world s)
                (map (post_request token target) rules) in
    Forall (fun o => passes o = true) (fst ow) ->
    for_enumerate i rules (add_rule provider py_str token zone id) s =
    mkRun (Ok tt) (mkSt (snd ow) (stdin s))
      (add_loop_events token target i rules (fst ow)).
Proof.
  induction 1 as [|rule rules Hd _ IH]; intros i s; cbv zeta.
  - intros _. destruct s; reflexivity.
  - cbn [map outcomes_of fst snd]. intros Hos.
    inversion Hos as [|o os Ho Hos' E]; subst; clear Hos.
    cbn [for_enumerate].
    erewrite bind_run.
    2:{ rewrite add_rule_run by assumption. cbv zeta.
        fold (post_request token (rules_url py_str zone id) rule).
        rewrite (guarded_result_passes _ Ho). reflexivity. }
    rewrite (IH (i + 1)%Z (mkSt _ (stdin s)) Hos'). reflexivity.
Qed.

Lemma rules_described : Forall described SECURITY_RULES.
Proof. repeat constructor; eexists; split; reflexivity. Qed.

(** [add_security_rules] as a whole, when no POST ends its loop. *)
Lemma add_security_rules_run (s : St W) :
  posts_complete provider py_str token zone s ->
  add_security_rules provider py_str token zone s =
  let o0 := fst (provider (world s) (list_request token zone)) in
  let ow := post_outcomes provider py_str token zone s in
  mkRun (Ok tt) (mkSt (snd ow) (stdin s))
    (EPrint adding_header :: EHttp (list_request token zone) o0
     :: add_loop_events token (target_of py_str zone o0) 1 SECURITY_RULES
          (fst ow)
     ++ [EPrint adding_footer]).
Proof.
  intros Hp. unfold add_security_rules. rewrite bind_print by reflexivity.
  erewrite bind_run by apply resolve_run.
  erewrite bind_run by (apply add_loop_run; [apply rules_described|exact Hp]).
  reflexivity.
Qed.

(** *** The dispatcher *)

Lemma http_requests_prints (t : list Event) :
  forallb is_print t = true -> http_requests t = [].
Proof.
  induction t as [|[l|p|rq o] t IH]; cbn; try discriminate; auto.
Qed.

Lemma http_requests_print l t :
  http_requests (EPrint l :: t) = http_requests t.
Proof. reflexivity. Qed.

Lemma http_requests_prompt p t :
  http_requests (EPrompt p :: t) = http_requests t.
Proof. reflexivity. Qed.

Lemma http_requests_call rq o t :
  http_requests (EHttp rq o :: t) = rq :: http_requests t.
Proof. reflexivity. Qed.

Lemma http_requests_nil : http_requests [] = [].
Proof. reflexivity. Qed.

Create Rewrite HintDb trace.
Hint Rewrite http_requests_app http_requests_print http_requests_prompt
  http_requests_call http_requests_nil http_requests_report : trace.

Lemma print_ok (l : list piece) (s : St W) :
  printable l = true -> print l s = mkRun (Ok tt) s [EPrint l].
Proof. intros H. rewrite print_run, H. reflexivity. Qed.

Ltac trace t Ht :=
  rewrite ?print_ok by reflexivity;
  cbn [prepend res final events app];
  autorewrite with trace; rewrite ?(http_requests_prints t Ht);
  cbn [app existsb mutating rq_method list_request request_of orb exit_status].

Lemma printed_app (t u : list Event) :
  printed (t ++ u) = printed t ++ printed u.
Proof. apply flat_map_app. Qed.

Lemma bind_listing {A} (K : unit -> M W A) (s : St W) :
  exists t, forallb is_print t = true /\
    bind (list_existing_rules provider token zone) K s =
    let ow := provider (world s) (list_request token zone) in
    let pre := EPrint listing_header :: EHttp (list_request token zone) (fst ow) :: t in
    if passes (fst ow)
    then prepend pre (K tt (mkSt (snd ow) (stdin s)))
    else mkRun (Raise (stopper (fst ow))) (mkSt (snd ow) (stdin s)) pre.
Proof.
  destruct (list_existing_rules_run s) as (t & Ht & E).
  exists t. split; [exact Ht|]. cbv zeta in *. unfold guarded_result in E.
  destruct (passes _).
  - erewrite bind_run by exact E. reflexivity.
  - erewrite bind_run_raise by exact E. reflexivity.
Qed.

(** A call whose failure can be written and that does not pass was cut
    short by Ctrl-C. *)
Lemma stopper_loggable (o : HttpOutcome) :
  loggable o = true -> passes o = false -> stopper o = KeyboardInterrupt.
Proof.
  unfold passes, stopper. intros ->. destruct (interrupted o);
    [reflexivity|discriminate].
Qed.

Lemma stopper_cases (o : HttpOutcome) :
  stopper o = KeyboardInterrupt \/ stopper o = UnicodeEncodeError.
Proof. unfold stopper. destruct (interrupted o); auto. Qed.

Lemma stopper_unloggable (o : HttpOutcome) :
  loggable o = false -> stopper o = UnicodeEncodeError /\ passes o = false.
Proof.
  unfold stopper, passes. intros H. rewrite H, andb_false_r.
  split; [|reflexivity].
  destruct o as [[j|]| |]; try reflexivity. discriminate.
Qed.

(** What the [__main__] block makes of the way [main] ended. *)
Lemma script_run (args : list string) (s : St W) :
  let r := main provider py_str token zone args s in
  let r' := script provider py_str token zone args s in
  final r' = final r
  /\ http_requests (events r') = http_requests (events r)
  /\ exit_status (res r') =
     match res r with
     | Ok _ => 0
     | Raise (SystemExit code) => code
     | Raise KeyboardInterrupt => 0
     | Raise _ => 1
     end%Z.
Proof.
  cbv zeta. unfold script, try_except.
  generalize (main provider py_str token zone args s). intros r.
  destruct (res r) as [[]|e] eqn:Hr.
  - rewrite Hr. auto.
  - destruct e; cbn [except_Exception is_Exception];
      try (unfold bind; rewrite print_run, ?printable_failure by reflexivity;
           try destruct (exn_encodable _));
      cbn; rewrite ?Hr, ?http_requests_app, ?app_nil_r; auto.
Qed.

Lemma valid_config_check :
  valid_config token zone ->
  (token =? "YOUR_API_TOKEN_HERE")%string || (zone =? "YOUR_ZONE_ID_HERE")%string
  = false.
Proof.
  intros [Ht Hz]. apply String.eqb_neq in Ht, Hz. rewrite Ht, Hz. reflexivity.
Qed.

(** With a placeholder credential [main] prints the instructions and
    raises [SystemExit(1)] before anything else. *)
Lemma main_placeholder (args : list string) (s : St W) :
  token = "YOUR_API_TOKEN_HERE" \/ zone = "YOUR_ZONE_ID_HERE" ->
  main provider py_str token zone args s =
  mkRun (Raise (SystemExit 1)) s (banner ++ instructions).
Proof.
  intros H. unfold main.
  assert (C : (token =? "YOUR_API_TOKEN_HERE")%string
              || (zone =? "YOUR_ZONE_ID_HERE")%string = true).
  { destruct H as [-> | ->]; rewrite String.eqb_refl;
      auto using orb_true_r. }
  rewrite C. reflexivity.
Qed.

(** C2. When the API token or the zone id still has its placeholder
    value, the run issues no HTTP call at all, leaves the provider and the
    keyboard untouched, and ends with exit status 1 (so not 0), whatever
    the arguments, the provider and the keyboard are. *)
Theorem placeholder_credentials_exit (args : list string) (w : W)
    (keys : list StdinEvent) :
  token = "YOUR_API_TOKEN_HERE" \/ zone = "YOUR_ZONE_ID_HERE" ->
  let r := run provider py_str token zone args w keys in
  http_requests (events r) = []
  /\ exit_status (res r) <> 0%Z
  /\ exit_status (res r) = 1%Z
  /\ final r = mkSt w keys.
Proof.
  intros H. cbv zeta. unfold run.
  destruct (script_run args (mkSt w keys)) as (Hf & Hq & Hx).
  rewrite Hf, Hq, Hx, (main_placeholder args (mkSt w keys) H).
  cbn. repeat split; discriminate.
Qed.

Lemma input_line (prompt : string) (w : W) (l : string)
    (keys : list StdinEvent) :
  input prompt (mkSt w (Line l :: keys)) =
  mkRun (Ok l) (mkSt w keys) [EPrompt prompt].
Proof. reflexivity. Qed.

Ltac listing t Ht :=
  match goal with
  | |- context [bind (list_existing_rules provider token zone) ?K ?s] =>
      destruct (bind_listing K s) as (t & Ht & ->); cbv zeta;
      cbn [world stdin]
  end.

(** C6. With [--setup] and without [--force] among the arguments, when
    the listing gets as far as the prompt (its failure, if the GET failed,
    can be written) and the line typed at the keyboard does not lower to
    "yes", the run makes no mutating HTTP call: the only call is the
    listing GET, and the exit status is 0.  (With [--list] or [--delete]
    also present another branch runs; the statement holds there too.  A
    Ctrl-C during the GET ends the run with status 0 as well.) *)
Theorem declined_setup_changes_nothing (args : list string) (w : W)
    (answer : string) (keys : list StdinEvent) :
  valid_config token zone ->
  py_in "--setup" args = true ->
  py_in "--force" args = false ->
  loggable (fst (provider w (list_request token zone))) = true ->
  lower answer <> "yes" ->
  let r := run provider py_str token zone args w (Line answer :: keys) in
  existsb mutating (http_requests (events r)) = false
  /\ http_requests (events r) = [(list_request token zone)]
  /\ exit_status (res r) = 0%Z.
Proof.
  intros Hv Hsetup Hforce Hlog Hno. cbv zeta. unfold run.
  destruct (script_run args (mkSt w (Line answer :: keys))) as (_ & -> & ->).
  apply String.eqb_neq in Hno.
  unfold main. rewrite (valid_config_check Hv), Hsetup, Hforce.
  rewrite !bind_print by reflexivity.
  cbv beta iota. rewrite ?bind_ret.
  destruct (py_in "--list" args); [|destruct (py_in "--delete" args)].
  - destruct (list_existing_rules_run (mkSt w (Line answer :: keys)))
      as (t & Ht & ->).
    cbv zeta. cbn [world]. unfold guarded_result.
    destruct (passes _) eqn:Hpass;
      [|rewrite (stopper_loggable _ Hlog Hpass)]; trace t Ht; auto.
  - listing t Ht. destruct (passes _) eqn:Hpass.
    + erewrite bind_run by apply input_line. rewrite Hno.
      trace t Ht; auto.
    + rewrite (stopper_loggable _ Hlog Hpass). trace t Ht; auto.
  - listing t Ht. destruct (passes _) eqn:Hpass.
    + rewrite !bind_print by reflexivity. cbn [negb].
      erewrite bind_run_raise.
      2:{ erewrite bind_run by apply input_line. rewrite Hno. cbn [negb].
          rewrite bind_print by reflexivity. reflexivity. }
      trace t Ht; auto.
    + rewrite (stopper_loggable _ Hlog Hpass). trace t Ht; auto.
Qed.

Lemma mutating_bind_l {A B} (m : M W A) (k : A -> M W B) (s : St W) :
  existsb mutating (http_requests (events (m s))) = true ->
  existsb mutating (http_requests (events (bind m k s))) = true.
Proof.
  intros H. unfold bind. destruct (res (m s)); cbn [events]; [|exact H].
  rewrite http_requests_app, existsb_app, H. reflexivity.
Qed.

(** Whatever happens, [add_security_rules] gets as far as the POST of the
    first rule. *)
Lemma add_security_rules_mutates (s : St W) :
  existsb mutating
    (http_requests (events (add_security_rules provider py_str token zone s)))
  = true.
Proof.
  unfold add_security_rules. rewrite bind_print by reflexivity.
  erewrite bind_run by apply resolve_run.
  cbn [prepend events for_enumerate SECURITY_RULES].
  rewrite !http_requests_app, !existsb_app.
  apply orb_true_iff. right. apply orb_true_iff. right.
  apply mutating_bind_l, mutating_bind_l.
  rewrite add_rule_run by (eexists; split; reflexivity). reflexivity.
Qed.

(** C10. At the prompt of [--delete] and at the prompt of [--setup]
    without [--force] (reached once the listing is through: its GET was
    not cut short by Ctrl-C and its failure, if it failed, could be
    written), a mutating HTTP call is made exactly when the answer lowers
    to "yes"; any other answer prints "Cancelled.", leaves the listing GET
    as the only call and exits with status 0.  "y", "YES " and the empty
    answer are among the others; "YES" is affirmative. *)
Theorem confirmation_is_exactly_yes (args : list string) (w : W)
    (answer : string) (keys : list StdinEvent) :
  valid_config token zone ->
  py_in "--list" args = false ->
  py_in "--delete" args = true
  \/ (py_in "--setup" args = true /\ py_in "--force" args = false) ->
  passes (fst (provider w (list_request token zone))) = true ->
  let r := run provider py_str token zone args w (Line answer :: keys) in
  (existsb mutating (http_requests (events r)) = true
   <-> lower answer = "yes")
  /\ (lower answer <> "yes" ->
      In cancelled (events r) /\ exit_status (res r) = 0%Z
      /\ http_requests (events r) = [(list_request token zone)])
  /\ lower "y" <> "yes" /\ lower "YES " <> "yes" /\ lower "" <> "yes"
  /\ lower "YES" = "yes".
Proof.
  intros Hv Hlist Hflags Hgo. cbv zeta.
  match goal with
  | |- ?P /\ ?Q /\ _ =>
      enough (P /\ Q) as [HP HQ]
        by (split; [exact HP | split; [exact HQ |]];
            repeat split; try discriminate; reflexivity)
  end.
  unfold run.
  destruct (script_run args (mkSt w (Line answer :: keys))) as (_ & Hq & Hx).
  rewrite Hq, Hx.
  assert (Hin : forall e,
             In e (events (main provider py_str token zone args
                             (mkSt w (Line answer :: keys)))) ->
             In e (events (script provider py_str token zone args
                             (mkSt w (Line answer :: keys))))).
  { intros e. unfold script, try_except.
    generalize (main provider py_str token zone args (mkSt w (Line answer :: keys))).
    intros r He. destruct (res r) as [|e'] eqn:Hr; [exact He|].
    destruct (match e' with
              | KeyboardInterrupt => _
              | _ => _
              end); [|exact He].
    cbn [events]. apply in_or_app. left. exact He. }
  unfold main in *. rewrite (valid_config_check Hv), Hlist in *.
  rewrite !bind_print in * by reflexivity.
  cbv beta iota in *. rewrite ?bind_ret in *.
  clear Hq Hx.
  assert (Hans : if (lower answer =? "yes")%string
                 then lower answer = "yes" else lower answer <> "yes")
    by (destruct (String.eqb_spec (lower answer) "yes"); assumption).
  destruct (py_in "--delete" args) eqn:Hdel.
  - clear Hflags. revert Hin. listing t Ht. rewrite Hgo. intros Hin.
    erewrite bind_run in * by apply input_line.
    destruct (lower answer =? "yes")%string.
    + rewrite delete_all_rules_run. trace t Ht. tauto.
    + rewrite print_ok in * by reflexivity.
      trace t Ht. split; [split; [discriminate|tauto]|]. intros _.
      split; [|auto]. apply Hin. cbn. rewrite !in_app_iff. cbn. tauto.
  - destruct Hflags as [|[Hsetup Hforce]]; [discriminate|].
    rewrite Hsetup, Hforce in *. revert Hin.
    listing t Ht. rewrite Hgo. intros Hin.
    rewrite !bind_print in * by reflexivity. cbn [negb] in *.
    destruct (lower answer =? "yes")%string eqn:Ha.
    + erewrite bind_run in *.
      2,3: erewrite bind_run by apply input_line; rewrite Ha; reflexivity.
      split; [|tauto]. split; [auto|intros _].
      cbn [prepend events]. rewrite !http_requests_app, !existsb_app.
      repeat (apply orb_true_iff; right).
      cbv beta iota. rewrite ?bind_ret.
      apply mutating_bind_l, add_security_rules_mutates.
    + erewrite bind_run_raise in *.
      2,3: erewrite bind_run by apply input_line; rewrite Ha; cbn [negb];
           rewrite bind_print by reflexivity; reflexivity.
      trace t Ht. split; [split; [discriminate|tauto]|]. intros _.
      split; [|auto]. apply Hin. cbn. rewrite !in_app_iff. cbn. tauto.
Qed.

(** C3. For every endpoint, method and body, [make_request] makes exactly
    one call.  When the response is a JSON object: it is returned when its
    [success] is true; when [success] is false or absent an error carrying
    the value of [errors] is raised; for a boolean [success] the response
    is returned exactly when it is true.  And whatever the outcome of the
    call, a value is returned only if it is the decoded response and its
    [success] is true in Python's sense. *)
Theorem make_request_success_flag (m : Method) (endpoint : string)
    (data : option json) (s : St W) :
  let rq := request_of token m endpoint data in
  let o := fst (provider (world s) rq) in
  let r := make_request provider token endpoint (method_name m) data s in
  events r = [EHttp rq o]
  /\ (forall kv, o = Responded (Some (JObj kv)) ->
        (dict_lookup "success" kv = Some (JBool true) ->
         res r = Ok (JObj kv))
        /\ (dict_lookup "success" kv = Some (JBool false)
            \/ dict_lookup "success" kv = None ->
            exists errors,
              py_get (JObj kv) "errors" JNull = Ok errors
              /\ res r = Raise (APIError errors))
        /\ (forall b, dict_lookup "success" kv = Some (JBool b) ->
            (res r = Ok (JObj kv) <-> b = true)))
  /\ (forall j, res r = Ok j ->
        o = Responded (Some j)
        /\ exists v, py_get j "success" JNull = Ok v /\ truthy v = true).
Proof.
  cbv zeta. rewrite make_request_run. cbv zeta. cbn [res events].
  destruct (provider (world s) (request_of token m endpoint data)) as [o w'].
  cbn [fst]. split; [reflexivity|]. split.
  - intros kv ->. cbn. repeat split.
    + intros ->. reflexivity.
    + intros [-> | ->]; cbn;
        (destruct (dict_lookup "errors" kv) as [e|];
         [exists e | exists JNull]; split; reflexivity).
    + rewrite H. destruct b; cbn; [reflexivity|].
      destruct (dict_lookup "errors" kv); discriminate.
    + intros ->. rewrite H. reflexivity.
  - intros j. destruct o as [[j'|]| |]; cbn; try discriminate.
    destruct (py_get j' "success" JNull) as [v|] eqn:Hv; [|discriminate].
    destruct (truthy v) eqn:Htv.
    + intros [= <-]. split; [reflexivity|]. exists v. auto.
    + destruct (py_get j' "errors" JNull); discriminate.
Qed.

(** X19. [make_request] with a method that is none of GET, POST, PUT,
    PATCH and DELETE makes no call: no branch binds [response], and
    [response.json()] raises [UnboundLocalError], an [Exception]. *)
Lemma make_request_unknown_method (endpoint method : string)
    (data : option json) (s : St W) :
  ~ In method ["GET"; "POST"; "PUT"; "PATCH"; "DELETE"] ->
  make_request provider token endpoint method data s =
  mkRun (Raise UnboundLocalError) s [].
Proof.
  intros H. unfold make_request.
  repeat match goal with
         | |- context [(method =? ?m)%string] =>
             destruct (String.eqb_spec method m) as [->|_];
             [exfalso; apply H; cbn; tauto|]
         end.
  reflexivity.
Qed.

Lemma py_get_subscript (j : json) (k : string) (v : json) :
  py_get j k JNull = Ok v -> truthy v = true -> py_subscript j k = Ok v.
Proof.
  destruct j; cbn; try discriminate.
  destruct (dict_lookup k kv); intros [= <-]; [reflexivity|discriminate].
Qed.

(** C7. Over a provider where PUT of a rule list to the entrypoint
    replaces the zone's ruleset and the listing GET returns the current
    ruleset, [delete_all_rules] followed by [list_existing_rules] reports
    the deletion and then prints "No existing rules found."; the zone's
    ruleset is empty at the end. *)
Theorem delete_then_list_reports_none (rules_of : W -> list json)
    (s : St W) :
  put_replaces provider token zone rules_of ->
  get_returns_current provider token zone rules_of ->
  let r := bind (delete_all_rules provider token zone)
             (fun _ => list_existing_rules provider token zone) s in
  res r = Ok tt
  /\ rules_of (world (final r)) = []
  /\ printed (events r) =
     [deleting_header; deleted_line; listing_header; no_rules_line].
Proof.
  intros Hput Hget. cbv zeta.
  destruct (Hput (world s) []) as ((j0 & Hj0) & Hrs). cbv zeta in *.
  fold (delete_request token zone) in *.
  pose proof (delete_all_rules_run s) as E. cbv zeta in E.
  rewrite (guarded_result_passes _ (passes_ok _ _ Hj0)) in E.
  erewrite bind_run by exact E. clear E.
  unfold report. rewrite Hj0.
  set (w1 := snd (provider (world s) (delete_request token zone))) in *.
  destruct (Hget w1) as (Hsame & j & r & Ho & Hs & Hr & Hrules).
  cbv zeta in *. fold (list_request token zone) in *. rewrite Hrs in Hrules.
  unfold list_existing_rules. rewrite bind_print by reflexivity.
  change "GET" with (method_name GET).
  assert (Hres : outcome_result (Responded (Some j)) = Ok j).
  { cbn. rewrite Hs. reflexivity. }
  assert (Hobj : truthy r = true).
  { destruct r as [| | | | |[|]]; cbn in Hrules; try discriminate.
    reflexivity. }
  rewrite guarded_call_run
    by (intros; (repeat quiet_step) || (apply printable_failure; reflexivity)).
  cbv zeta. fold (list_request token zone). cbn [world stdin]. unfold guarded_events.
  rewrite Ho, Hres, (guarded_result_passes _ (passes_ok _ _ Hres)). cbv beta.
  rewrite Hr, bind_ok, Hobj, (py_get_subscript _ _ _ Hr Hobj), bind_ok.
  rewrite Hrules, bind_ok. cbn [truthy].
  rewrite print_ok by reflexivity. cbn.
  rewrite Hsame, Hrs. auto.
Qed.

Lemma resolved_id_cases (o : HttpOutcome) :
  resolved_id o =
  match outcome_result o with
  | Ok result => match lookup_id result with
                 | Ok id => id
                 | Raise _ => JNull
                 end
  | Raise _ => JNull
  end.
Proof.
  unfold resolved_id, lookup_id. destruct (outcome_result o); [|reflexivity].
  destruct (py_subscript a "result"); reflexivity.
Qed.

Lemma add_security_rules_requests (s : St W) :
  posts_complete provider py_str token zone s ->
  let o0 := fst (provider (world s) (list_request token zone)) in
  let r := add_security_rules provider py_str token zone s in
  res r = Ok tt
  /\ http_requests (events r) =
     list_request token zone
     :: map (post_request token (target_of py_str zone o0)) SECURITY_RULES.
Proof.
  intros Hp. cbv zeta. rewrite (add_security_rules_run s Hp).
  cbv zeta. cbn [res events]. split; [reflexivity|].
  autorewrite with trace.
  rewrite http_requests_add_loop. cbn [app].
  - rewrite app_nil_r. reflexivity.
  - unfold post_outcomes. rewrite length_outcomes_of, length_map.
    reflexivity.
Qed.

(** C9. [add_security_rules] first makes the entrypoint GET and, when no
    POST of the run ends the loop (none is cut short by Ctrl-C, none fails
    with a text that cannot be printed), returns normally whatever that
    GET came to (a failure of any kind included, printable or not: it is
    not reported), after one POST per rule, all to one address: the phase
    entrypoint when the GET failed or [result.id] could not be read (or is
    false in Python's sense), and [rulesets/{id}/rules] otherwise. *)
Theorem ruleset_id_fallback (s : St W) :
  posts_complete provider py_str token zone s ->
  let o0 := fst (provider (world s) (list_request token zone)) in
  let r := add_security_rules provider py_str token zone s in
  res r = Ok tt
  /\ exists target,
      http_requests (events r) =
      (list_request token zone) :: map (post_request token target) SECURITY_RULES
      /\ match outcome_result o0 with
         | Raise _ => target = entrypoint_url zone
         | Ok result =>
             match lookup_id result with
             | Raise _ => target = entrypoint_url zone
             | Ok id =>
                 if truthy id
                 then target = (API_BASE ++ "/zones/" ++ zone ++ "/rulesets/"
                                ++ py_str id ++ "/rules")%string
                 else target = entrypoint_url zone
             end
         end.
Proof.
  intros Hp. cbv zeta.
  destruct (add_security_rules_requests s Hp) as (Hr & Hq).
  split; [exact Hr|].
  exists (target_of py_str zone (fst (provider (world s) (list_request token zone)))).
  split; [exact Hq|].
  unfold target_of, rules_url, rules_endpoint. rewrite resolved_id_cases.
  destruct (outcome_result _) as [result|]; [|reflexivity].
  destruct (lookup_id result) as [id|]; [|reflexivity].
  destruct (truthy id); reflexivity.
Qed.

(** C5. When no POST of the run ends the loop (none is cut short by
    Ctrl-C, none fails with a text that cannot be printed), the POSTs of
    [add_security_rules] are five, all to one address, and their bodies
    are the rules of [SECURITY_RULES] in the order of the table. *)
Theorem rules_submitted_in_table_order (s : St W) :
  posts_complete provider py_str token zone s ->
  let r := add_security_rules provider py_str token zone s in
  let posts := filter is_post (http_requests (events r)) in
  map rq_json posts = map Some SECURITY_RULES
  /\ length posts = 5%nat
  /\ (exists target, Forall (fun rq => rq_url rq = target) posts).
Proof.
  intros Hp. cbv zeta.
  destruct (add_security_rules_requests s Hp) as (_ & ->).
  cbn. repeat split. eexists. repeat constructor.
Qed.

Lemma add_loop_events_nth (target : string) (rules : list json) :
  forall (os : list HttpOutcome) (k : Z) (i : nat) rule o,
    nth_error rules i = Some rule ->
    nth_error os i = Some o ->
    add_loop_events token target k rules os =
    add_loop_events token target k (firstn i rules) (firstn i os)
    ++ add_rule_events token target (k + Z.of_nat i) rule o
    ++ add_loop_events token target (k + Z.of_nat i + 1)
         (skipn (S i) rules) (skipn (S i) os).
Proof.
  induction rules as [|r rules IH]; intros os k i rule o Hr Ho.
  - destruct i; discriminate.
  - destruct os as [|o' os]; [destruct i; discriminate|].
    destruct i as [|i].
    + cbn in Hr, Ho. injection Hr as ->. injection Ho as ->.
      cbn [firstn skipn add_loop_events app Z.of_nat].
      rewrite Z.add_0_r. reflexivity.
    + cbn in Hr, Ho. cbn [firstn skipn add_loop_events].
      rewrite (IH os (k + 1)%Z i rule o Hr Ho), <- app_assoc.
      replace (k + 1 + Z.of_nat i)%Z with (k + Z.of_nat (S i))%Z by lia.
      reflexivity.
Qed.

(** X20. When no POST of the run ends the loop (none is cut short by
    Ctrl-C, none fails with a text that cannot be printed),
    [add_security_rules] returns normally whatever the outcomes [os] of
    its five POSTs are; its events are the header, the GET, one group per
    rule (the "Adding" line, the POST, then "Success" or "Failed" by that
    POST's outcome alone) and the footer; its calls are the GET and the
    five POSTs, nothing that would undo a rule.  In particular when the
    POST of rule [i] fails with [e], the call is followed by the line
    "Failed: e", and what comes after contains exactly the POSTs of the
    rules after [i]. *)
Theorem failed_rule_does_not_stop_the_rest (s : St W) :
  posts_complete provider py_str token zone s ->
  let o0 := fst (provider (world s) (list_request token zone)) in
  let target := target_of py_str zone o0 in
  let os := fst (post_outcomes provider py_str token zone s) in
  let r := add_security_rules provider py_str token zone s in
  length os = 5%nat
  /\ res r = Ok tt
  /\ events r =
     EPrint adding_header :: EHttp (list_request token zone) o0
     :: add_loop_events token target 1 SECURITY_RULES os
     ++ [EPrint adding_footer]
  /\ http_requests (events r) =
     list_request token zone
     :: map (post_request token target) SECURITY_RULES
  /\ forall i rule o e,
       nth_error SECURITY_RULES i = Some rule ->
       nth_error os i = Some o ->
       outcome_result o = Raise e ->
       exists before after,
         events r =
         before
         ++ [EHttp (post_request token target rule) o;
             EPrint (failed_line e)]
         ++ after
         /\ http_requests after =
            map (post_request token target) (skipn (S i) SECURITY_RULES).
Proof.
  intros Hp. cbv zeta.
  destruct (add_security_rules_requests s Hp) as (_ & Hq).
  assert (Hlen : length (fst (post_outcomes provider py_str token zone s))
                 = 5%nat).
  { unfold post_outcomes. rewrite length_outcomes_of, length_map.
    reflexivity. }
  rewrite (add_security_rules_run s Hp) in *.
  cbv zeta in *. cbn [res events] in *.
  set (o0 := fst (provider (world s) (list_request token zone))) in *.
  set (os := fst (post_outcomes provider py_str token zone s)) in *.
  repeat split; try assumption.
  intros i rule o e Hrule Ho He.
  assert (Hexn : is_Exception e && exn_encodable e = true).
  { rewrite <- (passes_exn _ _ He).
    unfold posts_complete in Hp. rewrite Forall_forall in Hp.
    exact (Hp o (nth_error_In _ _ Ho)). }
  rewrite (add_loop_events_nth _ _ _ 1 i rule o Hrule Ho).
  unfold add_rule_events at 1, report. rewrite He, Hexn.
  exists (EPrint adding_header :: EHttp (list_request token zone) o0
          :: add_loop_events token (target_of py_str zone o0) 1
               (firstn i SECURITY_RULES) (firstn i os)
          ++ [EPrint (adding_line (1 + Z.of_nat i) rule)]),
         (add_loop_events token (target_of py_str zone o0)
            (1 + Z.of_nat i + 1)
            (skipn (S i) SECURITY_RULES) (skipn (S i) os)
          ++ [EPrint adding_footer]).
  split.
  - cbn [app]. rewrite <- !app_assoc. reflexivity.
  - autorewrite with trace. rewrite http_requests_add_loop, app_nil_r.
    + reflexivity.
    + rewrite !length_skipn, Hlen. reflexivity.
Qed.

(** *** How a run can end *)


Lemma calm_ret {A} (a : A) : calm (@ret W A a).
Proof. intros s e; discriminate. Qed.

Lemma calm_print (l : list piece) : calm (@print W l).
Proof.
  intros s e. rewrite print_run. destruct (printable l); [discriminate|].
  intros [= <-]. auto.
Qed.

Lemma calm_bind {A B} (m : M W A) (k : A -> M W B) :
  calm m -> (forall a, calm (k a)) -> calm (bind m k).
Proof.
  intros Hm Hk s e. unfold bind.
  destruct (res (m s)) as [a|e'] eqn:Hr; cbn [res].
  - apply Hk.
  - intros [= <-]. exact (Hm s e' Hr).
Qed.




Lemma calm_guarded (r : Run W unit) (o : HttpOutcome) s' t e :
  r = mkRun (guarded_result o) s' t -> res r = Raise e ->
  e = KeyboardInterrupt \/ e = UnicodeEncodeError.
Proof.
  intros ->. unfold guarded_result. cbn.
  destruct (passes o); [discriminate|]. intros [= <-]. apply stopper_cases.
Qed.

Lemma calm_list_existing_rules :
  calm (list_existing_rules provider token zone).
Proof.
  intros s e. destruct (list_existing_rules_run s) as (t & _ & E).
  eapply calm_guarded, E.
Qed.

Lemma calm_delete_all_rules : calm (delete_all_rules provider token zone).
Proof. intros s e. eapply calm_guarded, delete_all_rules_run. Qed.

Lemma calm_add_rule id i rule :
  described rule -> calm (add_rule provider py_str token zone id i rule).
Proof. intros Hd s e. eapply calm_guarded, add_rule_run, Hd. Qed.

Lemma calm_for_enumerate {A} (P : A -> Prop) (body : Z -> A -> M W unit)
    (l : list A) :
  (forall i x, P x -> calm (body i x)) -> Forall P l ->
  forall i, calm (for_enumerate i l body).
Proof.
  intros Hb. induction 1 as [|x l Hx _ IH]; intros i; cbn [for_enumerate].
  - apply calm_ret.
  - apply calm_bind; auto.
Qed.

Lemma calm_for_each {A} (P : A -> Prop) (body : A -> M W unit) (l : list A) :
  (forall x, P x -> calm (body x)) -> Forall P l -> calm (for_each l body).
Proof.
  intros Hb. induction 1 as [|x l Hx _ IH]; cbn [for_each].
  - apply calm_ret.
  - apply calm_bind; auto.
Qed.

Lemma calm_add_security_rules :
  calm (add_security_rules provider py_str token zone).
Proof.
  unfold add_security_rules. apply calm_bind; [apply calm_print|intros _].
  apply calm_bind.
  - intros s e. rewrite resolve_run. discriminate.
  - intros id. apply calm_bind; [|intros; apply calm_print].
    apply calm_for_enumerate with (P := described).
    + intros; apply calm_add_rule; assumption.
    + apply rules_described.
Qed.

Lemma settings_plain : Forall plain_row settings.
Proof. repeat constructor. Qed.

Lemma set_setting_run (setting value message : string) (s : St W) :
  plain_row (setting, value, message) ->
  set_setting provider token zone (setting, value, message) s =
  let rq := request_of token PATCH
              ("/zones/" ++ zone ++ "/settings/" ++ setting)%string
              (Some (JObj [("value", JStr value)])) in
  let ow := provider (world s) rq in
  mkRun (guarded_result (fst ow)) (mkSt (snd ow) (stdin s))
    (EHttp rq (fst ow)
     :: report [T "✅ "; T message]
          (fun e => [T "❌ Failed to set "; T setting; T ": "; X e])
          (fst ow)).
Proof.
  intros [Hs Hm]. cbn [fst snd] in Hs, Hm.
  unfold set_setting. change "PATCH" with (method_name PATCH).
  apply guarded_print.
  - cbn. rewrite Hm. reflexivity.
  - intros e. cbn. rewrite Hs, andb_true_r. reflexivity.
Qed.

Lemma calm_configure_security_settings :
  calm (configure_security_settings provider token zone).
Proof.
  unfold configure_security_settings.
  apply calm_bind; [apply calm_print|intros _].
  apply calm_bind; [|intros; apply calm_print].
  apply calm_for_each with (P := plain_row); [|apply settings_plain].
  intros [[setting value] message] Hrow s e.
  eapply calm_guarded, set_setting_run, Hrow.
Qed.

Create HintDb calm.
Hint Resolve calm_ret calm_print calm_list_existing_rules
  calm_delete_all_rules calm_add_security_rules
  calm_configure_security_settings : calm.




Ltac members := intros ?rq; cbn [In]; intuition (subst; auto).

(** With [--delete] among the arguments nothing is ever added or
    configured, whatever else is there: the calls of the run are among the
    listing GET and the deleting PUT. *)
Lemma delete_flag_never_adds (args : list string) (w : W)
    (keys : list StdinEvent) :
  valid_config token zone ->
  py_in "--delete" args = true ->
  let r := run provider py_str token zone args w keys in
  forall rq, In rq (http_requests (events r)) ->
             rq = (list_request token zone) \/ rq = (delete_request token zone).
Proof.
  intros Hv Hdel. cbv zeta. unfold run.
  destruct (script_run args (mkSt w keys)) as (_ & -> & _).
  unfold main. rewrite (valid_config_check Hv), Hdel.
  rewrite !bind_print by reflexivity.
  cbv beta iota. rewrite ?bind_ret.
  destruct (py_in "--list" args).
  - destruct (list_existing_rules_run (mkSt w keys)) as (t & Ht & ->).
    cbv zeta. trace t Ht. members.
  - listing t Ht. destruct (passes _).
    + destruct keys as [|[answer|] keys].
      * erewrite bind_run_raise by reflexivity. trace t Ht. members.
      * erewrite bind_run by apply input_line.
        destruct (lower answer =? "yes")%string.
        -- rewrite delete_all_rules_run. trace t Ht. members.
        -- trace t Ht. members.
      * erewrite bind_run_raise by reflexivity. trace t Ht. members.
    + trace t Ht. members.
Qed.
End Correctness.

(** ** The concrete providers *)

(** The zone never cuts a call short, and its refusals are printable. *)
Lemma zone_model_always_passes (zone : string) :
  always_passes (zone_model zone).
Proof.
  intros w rq. unfold zone_model.
  destruct (rq_url rq =? entrypoint_url zone)%string;
    [|destruct (rq_url rq =? _)%string];
    destruct (rq_method rq), (rq_json rq) as [body|]; try reflexivity.
  destruct (py_get body "rules" JNull) as [[]|]; reflexivity.
Qed.

(** Over the replaying provider the outcomes of the five POSTs are the
    five entries of the script after the first. *)
Lemma scripted_post_outcomes (py_str : json -> string) (token zone : string)
    (o0 : HttpOutcome) (os rest : list HttpOutcome) (keys : list StdinEvent) :
  length os = 5%nat ->
  fst (post_outcomes scripted py_str token zone (mkSt (o0 :: os ++ rest) keys))
  = os.
Proof.
  intros H.
  do 5 (destruct os as [|? os]; [discriminate|]).
  destruct os; [reflexivity|discriminate].
Qed.

Lemma zone_model_put_replaces (token zone : string) :
  put_replaces (zone_model zone) token zone (fun rules => rules).
Proof.
  intros w rs. cbv zeta. unfold zone_model, request_of.
  cbn [rq_url rq_method rq_json]. fold (entrypoint_url zone).
  rewrite String.eqb_refl. cbn. split; [eexists|]; reflexivity.
Qed.

Lemma zone_model_get_returns_current (token zone : string) :
  get_returns_current (zone_model zone) token zone (fun rules => rules).
Proof.
  intros w. cbv zeta. unfold zone_model, list_request, request_of.
  cbn [rq_url rq_method rq_json]. fold (entrypoint_url zone).
  rewrite String.eqb_refl. cbn. split; [reflexivity|].
  do 2 eexists. repeat split.
Qed.

(** ** Two runs where the script departs from what it announces *)

(** C1. The usage text announces [--setup --delete] as "Delete old rules
    and add new ones", and the [--setup] branch of [main] has the code for
    it; but [main] tests [--delete] before [--setup], so that with both
    flags only the deletion branch runs.  On a zone with one old rule and
    "yes" typed at the prompt, the calls are the listing GET and the
    deleting PUT and nothing else: no rule is POSTed, no setting PATCHed,
    no completion summary printed, and the zone is left with no rule.
    [--force] changes nothing to this. *)
Theorem setup_with_delete_only_deletes :
  let r := run (zone_model demo_zone) str_of_scalar demo_token demo_zone
             ["--setup"; "--delete"] [old_rule] [Line "yes"] in
  let r' := run (zone_model demo_zone) str_of_scalar demo_token demo_zone
              ["--setup"; "--delete"; "--force"] [old_rule] [Line "yes"] in
  http_requests (events r) =
    [list_request demo_token demo_zone; delete_request demo_token demo_zone]
  /\ existsb (event_eqb_print "✅  SETUP COMPLETE!") (events r) = false
  /\ world (final r) = []
  /\ exit_status (res r) = 0%Z
  /\ events r' = events r.
Proof. vm_compute. repeat split. Qed.

(** C8. The [__main__] block catches [KeyboardInterrupt] to print
    "Cancelled by user." and exit with status 0; but the bare [except:]
    around the ruleset lookup of [add_security_rules] catches it first.
    With [--setup --force] and Ctrl-C during that GET, the run prints no
    cancellation message, goes on to POST the five rules and PATCH the five
    settings, prints the completion summary and exits with status 0. *)
Theorem interrupt_swallowed_while_resolving :
  let r := run scripted str_of_scalar demo_token demo_zone
             ["--setup"; "--force"]
             (ok_response :: Interrupted :: repeat ok_response 10) [] in
  exit_status (res r) = 0%Z
  /\ existsb (event_eqb_print (nl ++ nl ++ "❌ Cancelled by user." ++ nl))
       (events r) = false
  /\ existsb (event_eqb_print "✅  SETUP COMPLETE!") (events r) = true
  /\ map rq_method (http_requests (events r)) =
     [GET; GET; POST; POST; POST; POST; POST;
      PATCH; PATCH; PATCH; PATCH; PATCH]
  /\ map snd (flat_map (fun e => match e with
                                 | EHttp rq o => [(rq, o)]
                                 | _ => []
                                 end) (events r)) =
     ok_response :: Interrupted :: repeat ok_response 10.
Proof. vm_compute. repeat split. Qed.


(** The same Ctrl-C during the listing GET reaches the [__main__] block. *)
Example interrupt_while_listing :
  let r := run scripted str_of_scalar demo_token demo_zone
             ["--setup"; "--force"] [Interrupted] [] in
  exit_status (res r) = 0%Z
  /\ existsb (event_eqb_print (nl ++ nl ++ "❌ Cancelled by user." ++ nl))
       (events r) = true
  /\ map rq_method (http_requests (events r)) = [GET].
Proof. vm_compute. repeat split. Qed.

(** End of input at a prompt reaches the top as an error. *)
Example end_of_input_at_the_prompt :
  let r := run (zone_model demo_zone) str_of_scalar demo_token demo_zone
             ["--setup"] [old_rule] [] in
  exit_status (res r) = 1%Z
  /\ map rq_method (http_requests (events r)) = [GET].
Proof. vm_compute. repeat split. Qed.

(** ** Examples *)

(** One old rule in the zone: it is listed, then "no" is answered. *)
Example listing_one_rule :
  printed (events (list_existing_rules (zone_model demo_zone) demo_token
                     demo_zone (mkSt [old_rule] []))) =
  [listing_header;
   [T "Found "; V (JNum 1); T (" existing rules:" ++ nl)];
   [V (JNum 1); T ". "; V (JStr "An older rule")];
   [T "   Action: "; V (JStr "block")];
   [T "   Enabled: "; V (JBool true)];
   []].
Proof. reflexivity. Qed.

(** The third rule is refused: its failure is printed, rules 4 and 5 are
    POSTed all the same. *)
Example third_rule_refused :
  let script := [ok_response; ok_response; ok_response; refused_response;
                 ok_response; ok_response] in
  let target := (API_BASE ++ "/zones/" ++ demo_zone ++ "/rulesets/rs1/rules")%string in
  let r := add_security_rules scripted str_of_scalar demo_token demo_zone
             (mkSt script []) in
  res r = Ok tt
  /\ events r =
     EPrint adding_header
     :: EHttp (list_request demo_token demo_zone) ok_response
     :: add_loop_events demo_token target 1 SECURITY_RULES (tl script)
     ++ [EPrint adding_footer]
  /\ filter (fun l => match l with [T _; X _; T _] => true | _ => false end)
       (printed (events r)) =
     [failed_line (APIError (JArr [JStr "rule limit exceeded"]))].
Proof. vm_compute. repeat split. Qed.

Example lower_examples :
  lower "YES" = "yes" /\ lower "Yes" = "yes" /\ lower "YES " = "yes "
  /\ lower "y" = "y" /\ lower "" = "" /\ lower "No" = "no".
Proof. repeat split. Qed.

Example slice_example :
  slice_to 60
    "Block AI bots, scrapers, and malicious user agents to protect LGBTQ+ user privacy"
  = "Block AI bots, scrapers, and malicious user agents to protec"
  /\ slice_to 3 "═══════" = "═══"
  /\ py_len (JStr "═══════") = Ok 7%Z.
Proof. repeat split. Qed.

(** ** The theorems at concrete inputs *)

Lemma placeholder_credentials_exit_witness :
  let r := run (zone_model demo_zone) str_of_scalar "YOUR_API_TOKEN_HERE"
             demo_zone ["--setup"; "--force"] [old_rule] [] in
  http_requests (events r) = []
  /\ exit_status (res r) <> 0%Z
  /\ exit_status (res r) = 1%Z
  /\ final r = mkSt [old_rule] [].
Proof.
  apply (placeholder_credentials_exit _ (zone_model demo_zone) str_of_scalar
           "YOUR_API_TOKEN_HERE" demo_zone).
  left. reflexivity.
Defined.

Lemma declined_setup_changes_nothing_witness :
  (valid_config demo_token demo_zone /\ lower "No" <> "yes"
   /\ loggable (fst (zone_model demo_zone [old_rule]
                       (list_request demo_token demo_zone))) = true)
  /\ let r := run (zone_model demo_zone) str_of_scalar demo_token demo_zone
                ["--setup"] [old_rule] [Line "No"] in
     existsb mutating (http_requests (events r)) = false
     /\ http_requests (events r) = [list_request demo_token demo_zone]
     /\ exit_status (res r) = 0%Z.
Proof.
  assert (Hv : valid_config demo_token demo_zone) by (split; discriminate).
  assert (Hno : lower "No" <> "yes") by discriminate.
  split; [split; [exact Hv | split; [exact Hno | reflexivity]]|].
  apply (declined_setup_changes_nothing _ (zone_model demo_zone) str_of_scalar
           demo_token demo_zone ["--setup"] [old_rule] "No" []);
    [exact Hv | reflexivity | reflexivity | reflexivity | exact Hno].
Defined.

Lemma confirmation_is_exactly_yes_witness :
  passes (fst (zone_model demo_zone [old_rule]
                 (list_request demo_token demo_zone))) = true
  /\ let r := run (zone_model demo_zone) str_of_scalar demo_token demo_zone
                ["--delete"] [old_rule] [Line "YES "] in
     (existsb mutating (http_requests (events r)) = true
      <-> lower "YES " = "yes").
Proof.
  assert (Hv : valid_config demo_token demo_zone) by (split; discriminate).
  split; [reflexivity|].
  exact (proj1 (confirmation_is_exactly_yes _ (zone_model demo_zone)
                  str_of_scalar demo_token demo_zone ["--delete"] [old_rule]
                  "YES " [] Hv eq_refl (or_introl eq_refl) eq_refl)).
Defined.

Lemma delete_then_list_reports_none_witness :
  let r := bind (delete_all_rules (zone_model demo_zone) demo_token demo_zone)
             (fun _ => list_existing_rules (zone_model demo_zone) demo_token
                         demo_zone)
             (mkSt [old_rule] []) in
  res r = Ok tt
  /\ world (final r) = []
  /\ printed (events r) =
     [deleting_header; deleted_line; listing_header; no_rules_line].
Proof.
  apply (delete_then_list_reports_none _ (zone_model demo_zone) demo_token
           demo_zone (fun rules => rules) (mkSt [old_rule] [])
           (zone_model_put_replaces demo_token demo_zone)
           (zone_model_get_returns_current demo_token demo_zone)).
Defined.

Lemma ruleset_id_fallback_witness :
  let s := mkSt (TransportFailure :: repeat ok_response 5) [] in
  posts_complete scripted str_of_scalar demo_token demo_zone s
  /\ res (add_security_rules scripted str_of_scalar demo_token demo_zone s)
     = Ok tt.
Proof.
  cbv zeta.
  assert (H : posts_complete scripted str_of_scalar demo_token demo_zone
                (mkSt (TransportFailure :: repeat ok_response 5) []))
    by (vm_compute; repeat constructor).
  split; [exact H|].
  apply (ruleset_id_fallback _ scripted str_of_scalar demo_token demo_zone
           _ H).
Defined.

Lemma rules_submitted_in_table_order_witness :
  let s := mkSt [old_rule] [] in
  posts_complete (zone_model demo_zone) str_of_scalar demo_token demo_zone s
  /\ map rq_json
       (filter is_post
          (http_requests
             (events (add_security_rules (zone_model demo_zone) str_of_scalar
                        demo_token demo_zone s))))
     = map Some SECURITY_RULES.
Proof.
  cbv zeta.
  assert (H : posts_complete (zone_model demo_zone) str_of_scalar demo_token
                demo_zone (mkSt [old_rule] []))
    by (vm_compute; repeat constructor).
  split; [exact H|].
  apply (rules_submitted_in_table_order _ (zone_model demo_zone)
           str_of_scalar demo_token demo_zone _ H).
Defined.

Lemma failed_rule_does_not_stop_the_rest_witness :
  let s := mkSt [ok_response; ok_response; ok_response; refused_response;
                 ok_response; ok_response] [] in
  posts_complete scripted str_of_scalar demo_token demo_zone s
  /\ res (add_security_rules scripted str_of_scalar demo_token demo_zone s)
     = Ok tt.
Proof.
  cbv zeta.
  assert (H : posts_complete scripted str_of_scalar demo_token demo_zone
                (mkSt [ok_response; ok_response; ok_response;
                       refused_response; ok_response; ok_response] []))
    by (vm_compute; repeat constructor).
  split; [exact H|].
  apply (failed_rule_does_not_stop_the_rest _ scripted str_of_scalar
           demo_token demo_zone _ H).
Defined.

(** * Further properties *)

Section Coverage.

Variable W : Type.
Variable provider : W -> Request -> HttpOutcome * W.
Variable py_str : json -> string.
Variable token : string.
Variable zone : string.

(** ** The request helper, on responses it cannot use *)

(** X1. [make_request] on a response it cannot use: a body that is not
    JSON raises [JSONDecodeError]; JSON that is not an object raises
    [AttributeError] (from [result.get]), not the API error; a failure of
    the transport raises its exception; Ctrl-C raises
    [KeyboardInterrupt].  The call has been made in each case, and what is
    raised is an [Exception] exactly when the call was not cut short. *)
Theorem make_request_unusable_response (m : Method) (endpoint : string)
    (data : option json) (s : St W) :
  let rq := request_of token m endpoint data in
  let o := fst (provider (world s) rq) in
  let r := make_request provider token endpoint (method_name m) data s in
  (o = Responded None -> res r = Raise JSONDecodeError)
  /\ (forall j, o = Responded (Some j) -> (forall kv, j <> JObj kv) ->
      res r = Raise AttributeError)
  /\ (o = TransportFailure -> res r = Raise RequestException)
  /\ (o = Interrupted -> res r = Raise KeyboardInterrupt)
  /\ (forall e, res r = Raise e -> is_Exception e = negb (interrupted o))
  /\ events r = [EHttp rq o]
  /\ final r = mkSt (snd (provider (world s) rq)) (stdin s).
Proof.
  cbv zeta. rewrite make_request_run. cbv zeta. cbn [res events final].
  destruct (provider (world s) (request_of token m endpoint data)) as [o w'].
  cbn [fst snd]. repeat split.
  - intros ->. reflexivity.
  - intros j -> Hj. destruct j; try reflexivity. destruct (Hj kv eq_refl).
  - intros ->. reflexivity.
  - intros ->. reflexivity.
  - intros e. apply outcome_result_exn.
Qed.

Lemma outcome_result_ok_inv (o : HttpOutcome) (j : json) :
  outcome_result o = Ok j ->
  o = Responded (Some j)
  /\ exists v, py_get j "success" JNull = Ok v /\ truthy v = true.
Proof.
  destruct o as [[j'|]| |]; cbn; try discriminate.
  destruct (py_get j' "success" JNull) as [v|] eqn:Hv; [|discriminate].
  destruct (truthy v) eqn:Htv.
  - intros [= <-]. split; [reflexivity|]. exists v. auto.
  - destruct (py_get j' "errors" JNull); discriminate.
Qed.

(** ** Listing *)

Lemma guarded_result_cases (o : HttpOutcome) :
  guarded_result o =
  if interrupted o then Raise KeyboardInterrupt
  else if loggable o then Ok tt
  else Raise UnicodeEncodeError.
Proof.
  unfold guarded_result, passes, stopper.
  destruct (interrupted o), (loggable o); reflexivity.
Qed.

(** X2. Whatever the provider answers, [list_existing_rules] makes
    exactly one call, the GET of the zone's entrypoint without a body, and
    takes nothing from the keyboard.  Two things get out of it: a Ctrl-C
    during the GET, as [KeyboardInterrupt], and, when the GET failed with
    a text that cannot be printed, the [UnicodeEncodeError] of the
    handler's own [print].  Otherwise it returns normally. *)
Theorem list_existing_rules_soft (s : St W) :
  let ow := provider (world s) (list_request token zone) in
  let r := list_existing_rules provider token zone s in
  http_requests (events r) =
    [mkRequest GET (entrypoint_url zone) (auth_headers token) None]
  /\ final r = mkSt (snd ow) (stdin s)
  /\ res r = (if interrupted (fst ow) then Raise KeyboardInterrupt
              else if loggable (fst ow) then Ok tt
              else Raise UnicodeEncodeError)
  /\ hd_error (printed (events r)) = Some listing_header.
Proof.
  cbv zeta. destruct (list_existing_rules_run _ provider token zone s)
    as (t & Ht & ->).
  cbv zeta. cbn [res final events]. rewrite guarded_result_cases.
  repeat split.
  cbn [http_requests flat_map app]. fold (http_requests t).
  rewrite (http_requests_prints t Ht). reflexivity.
Qed.

Create HintDb cov_quiet.
Hint Resolve quiet_ret quiet_print py_get_exn py_subscript_exn py_len_exn
  py_iter_exn : cov_quiet.

Ltac quiet_step :=
  match goal with
  | |- quiet (bind _ _) => apply quiet_bind; [|intro]
  | |- quiet (if ?b then _ else _) => destruct b
  | |- quiet (for_enumerate _ _ _) => apply quiet_for_enumerate; intros
  | |- quiet (lift _) => apply quiet_lift; eauto with cov_quiet
  | |- quiet _ => solve [eauto with cov_quiet]
  end.

Lemma py_get_object (kv : list (string * json)) (k : string) (d : json) :
  py_get (JObj kv) k d = Ok (dict_get k d kv).
Proof. unfold py_get, dict_get. destruct (dict_lookup k kv); reflexivity. Qed.

(** The body of the loop of [list_existing_rules]. *)
Notation "'show_rule'" :=
  (fun i rule =>
     bind (lift (py_get rule "description" (JStr "Unnamed rule")))
       (fun d =>
          bind (print [V (JNum i); T ". "; V d])
            (fun _ =>
               bind (lift (py_get rule "action" JNull))
                 (fun a =>
                    bind (print [T "   Action: "; V a])
                      (fun _ =>
                         bind (lift (py_get rule "enabled" JNull))
                           (fun e =>
                              bind (print [T "   Enabled: "; V e])
                                (fun _ => print [])))))))
  (only parsing).

Lemma shown_all (lines : list (list piece)) :
  forallb printable lines = true -> shown lines = lines.
Proof.
  induction lines as [|l lines IH]; [reflexivity|]. cbn.
  intros H. apply andb_prop in H. destruct H as [-> H].
  rewrite (IH H). reflexivity.
Qed.

Lemma shown_app (ls ms : list (list piece)) :
  shown (ls ++ ms) =
  if forallb printable ls then ls ++ shown ms else shown ls.
Proof.
  induction ls as [|l ls IH]; [reflexivity|]. cbn.
  destruct (printable l); [|reflexivity]. cbn [andb]. rewrite IH.
  destruct (forallb printable ls); reflexivity.
Qed.

(** One turn: the lines of the rule, up to the first that cannot be
    written. *)
Lemma show_rule_run (i : Z) (kv : list (string * json)) (s : St W) :
  show_rule i (JObj kv) s =
  mkRun (if forallb printable (rule_lines i kv) then Ok tt
         else Raise UnicodeEncodeError)
    s (map EPrint (shown (rule_lines i kv))).
Proof.
  unfold rule_lines. cbn [forallb shown map]. cbv beta.
  rewrite !py_get_object, bind_ok.
  destruct (printable [V (JNum i); T ". "; V _]) eqn:H1;
    [rewrite bind_print by exact H1
    |rewrite bind_print_fails by exact H1; reflexivity].
  rewrite bind_ok.
  destruct (printable [T "   Action: "; V _]) eqn:H2;
    [rewrite bind_print by exact H2
    |rewrite bind_print_fails by exact H2; reflexivity].
  rewrite bind_ok.
  destruct (printable [T "   Enabled: "; V _]) eqn:H3;
    [rewrite bind_print by exact H3
    |rewrite bind_print_fails by exact H3; reflexivity].
  reflexivity.
Qed.

(** The loop over a list of objects: it stops at the first line that
    cannot be written. *)
Lemma listing_loop_objects (kvs : list (list (string * json))) :
  forall (i : Z) (s : St W),
    for_enumerate i (map JObj kvs) show_rule s
    = mkRun (if forallb printable (listing_lines i kvs) then Ok tt
             else Raise UnicodeEncodeError)
        s (map EPrint (shown (listing_lines i kvs))).
Proof.
  induction kvs as [|kv kvs IH]; intros i s; [reflexivity|].
  cbn [map for_enumerate listing_lines].
  rewrite forallb_app, shown_app.
  destruct (forallb printable (rule_lines i kv)) eqn:Hkv.
  - erewrite bind_run by (rewrite show_rule_run, Hkv; reflexivity).
    rewrite IH. unfold prepend. cbn [res final events andb].
    rewrite (shown_all _ Hkv), map_app. reflexivity.
  - erewrite bind_run_raise by (rewrite show_rule_run, Hkv; reflexivity).
    reflexivity.
Qed.

(** The same loop stops at the first entry that is not an object, if it
    gets that far. *)
Lemma listing_loop_stops (kvs : list (list (string * json))) (bad : json)
    (rest : list json) :
  (forall kv, bad <> JObj kv) ->
  forall (i : Z) (s : St W),
    for_enumerate i (map JObj kvs ++ bad :: rest) show_rule s
    = mkRun (Raise (if forallb printable (listing_lines i kvs)
                    then AttributeError else UnicodeEncodeError))
        s (map EPrint (shown (listing_lines i kvs))).
Proof.
  intros Hbad. induction kvs as [|kv kvs IH]; intros i s.
  - cbn [map app for_enumerate listing_lines forallb shown].
    erewrite bind_run_raise; [reflexivity|].
    destruct bad; try reflexivity. destruct (Hbad kv eq_refl).
  - cbn [map app for_enumerate listing_lines].
    rewrite forallb_app, shown_app.
    destruct (forallb printable (rule_lines i kv)) eqn:Hkv.
    + erewrite bind_run by (rewrite show_rule_run, Hkv; reflexivity).
      rewrite IH. unfold prepend. cbn [res final events andb].
      rewrite (shown_all _ Hkv), map_app. reflexivity.
    + erewrite bind_run_raise by (rewrite show_rule_run, Hkv; reflexivity).
      reflexivity.
Qed.

Lemma printed_print (l : list piece) (t : list Event) :
  printed (EPrint l :: t) = l :: printed t.
Proof. reflexivity. Qed.

Lemma printed_prompt (p : string) (t : list Event) :
  printed (EPrompt p :: t) = printed t.
Proof. reflexivity. Qed.

Lemma printed_call (rq : Request) (o : HttpOutcome) (t : list Event) :
  printed (EHttp rq o :: t) = printed t.
Proof. reflexivity. Qed.

Lemma printed_nil : printed [] = [].
Proof. reflexivity. Qed.

Create Rewrite HintDb cov_printed.
Hint Rewrite printed_app printed_print printed_prompt printed_call
  printed_nil : cov_printed.

Create Rewrite HintDb cov_trace.
Hint Rewrite http_requests_app http_requests_print http_requests_prompt
  http_requests_call http_requests_nil http_requests_report : cov_trace.

Lemma printed_report done fail (o : HttpOutcome) :
  printed (report done fail o) =
  match outcome_result o with
  | Ok _ => [done]
  | Raise e => if is_Exception e && exn_encodable e then [fail e] else []
  end.
Proof.
  unfold report. destruct (outcome_result o) as [|e]; [reflexivity|].
  destruct (is_Exception e && exn_encodable e); reflexivity.
Qed.

Lemma printed_prints (ls : list (list piece)) : printed (map EPrint ls) = ls.
Proof.
  induction ls as [|l ls IH]; [reflexivity|].
  cbn [map]. rewrite printed_print, IH. reflexivity.
Qed.

Lemma truthy_object_with (r : json) (k : string) (v : json) :
  py_get r k JNull = Ok v -> truthy v = true -> truthy r = true.
Proof.
  destruct r as [| | | | |[|p kv]]; cbn; try discriminate; [|reflexivity].
  intros [= <-]. discriminate.
Qed.

(** What [list_existing_rules] does once the response is there, for a
    response that carries a list of rules: what stops the loop is caught
    and reported. *)
Lemma listing_of_rules (s : St W) (j r : json) (items : list json) :
  fst (provider (world s) (list_request token zone)) = Responded (Some j) ->
  py_get j "success" JNull = Ok (JBool true) ->
  py_get j "result" JNull = Ok r ->
  py_get r "rules" JNull = Ok (JArr items) ->
  items <> [] ->
  list_existing_rules provider token zone s =
  let s' := mkSt (snd (provider (world s) (list_request token zone)))
              (stdin s) in
  let loop := for_enumerate 1 items show_rule s' in
  mkRun (Ok tt) s'
    (EPrint listing_header
     :: EHttp (list_request token zone) (Responded (Some j))
     :: EPrint (found_line (length items))
     :: events loop
     ++ match res loop with
        | Ok _ => []
        | Raise e => [EPrint (listing_failed_line e)]
        end).
Proof.
  intros Ho Hs Hr Hrules Hne. cbv zeta.
  assert (Hres : outcome_result (Responded (Some j)) = Ok j).
  { cbn. rewrite Hs. reflexivity. }
  assert (Hitems : truthy (JArr items) = true)
    by (destruct items; [contradiction|reflexivity]).
  assert (Hobj : truthy r = true)
    by exact (truthy_object_with _ _ _ Hrules Hitems).
  unfold list_existing_rules. rewrite bind_print by reflexivity.
  change "GET" with (method_name GET).
  rewrite guarded_call_run
    by (intros; (repeat quiet_step) || (apply printable_failure; reflexivity)).
  cbv zeta. fold (list_request token zone). unfold guarded_events.
  rewrite Ho, Hres, (guarded_result_passes _ (passes_ok _ _ Hres)). cbv beta.
  rewrite Hr, bind_ok, Hobj, (py_get_subscript _ _ _ Hr Hobj), bind_ok.
  rewrite Hrules, bind_ok, Hitems, bind_ok.
  rewrite (py_get_subscript _ _ _ Hrules Hitems), bind_ok.
  cbn [py_len py_iter]. rewrite !bind_ok, bind_print by reflexivity.
  unfold prepend. cbn [res final events app]. reflexivity.
Qed.

(** X3. When the response is a success whose [result.rules] is a
    non-empty list of objects, [list_existing_rules] prints the header,
    "Found n existing rules:" with n the length of the list, and then, for
    the rules in the order of the list and numbered from 1, four lines
    each: the description ("Unnamed rule" when it has none), the action,
    the enabled flag ([None] when absent) and an empty line.  It gets as
    far as the first line that cannot be written (a description or an
    action that is a string holding a lone surrogate): there the [print]
    raises inside the [try], the failure line with [UnicodeEncodeError]
    follows and the later rules are not shown.  It returns normally in
    both cases; when every line can be written, all of them are. *)
Theorem listing_prints_each_rule (s : St W) (j r : json)
    (kvs : list (list (string * json))) :
  fst (provider (world s) (list_request token zone)) = Responded (Some j) ->
  py_get j "success" JNull = Ok (JBool true) ->
  py_get j "result" JNull = Ok r ->
  py_get r "rules" JNull = Ok (JArr (map JObj kvs)) ->
  kvs <> [] ->
  let lines := listing_lines 1 kvs in
  let run := list_existing_rules provider token zone s in
  res run = Ok tt
  /\ printed (events run) =
     listing_header :: found_line (length kvs)
     :: shown lines
     ++ (if forallb printable lines then []
         else [listing_failed_line UnicodeEncodeError])
  /\ (forallb printable lines = true ->
      printed (events run) =
      listing_header :: found_line (length kvs) :: lines).
Proof.
  intros Ho Hs Hr Hrules Hne. cbv zeta.
  rewrite (listing_of_rules s j r (map JObj kvs) Ho Hs Hr Hrules)
    by (destruct kvs; [contradiction|discriminate]).
  cbv zeta. rewrite listing_loop_objects. cbn [res events].
  rewrite length_map. autorewrite with cov_printed. rewrite printed_prints.
  split; [reflexivity|]. split.
  - destruct (forallb printable (listing_lines 1 kvs)); reflexivity.
  - intros Hall. rewrite Hall, (shown_all _ Hall), app_nil_r. reflexivity.
Qed.

(** X4. When the list of rules holds an entry that is not an object, the
    listing prints the count of the whole list and the lines of the rules
    before that entry, as far as they can be written, then one failure
    line, and returns normally: the entries after it are not shown.  The
    failure is the [AttributeError] of the entry when all the lines
    before it were written, and the [UnicodeEncodeError] of the first line
    that could not be written otherwise. *)
Theorem listing_stops_at_malformed_entry (s : St W) (j r : json)
    (kvs : list (list (string * json))) (bad : json) (rest : list json) :
  fst (provider (world s) (list_request token zone)) = Responded (Some j) ->
  py_get j "success" JNull = Ok (JBool true) ->
  py_get j "result" JNull = Ok r ->
  py_get r "rules" JNull = Ok (JArr (map JObj kvs ++ bad :: rest)) ->
  (forall kv, bad <> JObj kv) ->
  let lines := listing_lines 1 kvs in
  let run := list_existing_rules provider token zone s in
  res run = Ok tt
  /\ printed (events run) =
     listing_header
     :: found_line (length kvs + 1 + length rest)
     :: shown lines
     ++ [listing_failed_line (if forallb printable lines
                              then AttributeError else UnicodeEncodeError)].
Proof.
  intros Ho Hs Hr Hrules Hbad. cbv zeta.
  rewrite (listing_of_rules s j r _ Ho Hs Hr Hrules)
    by (destruct kvs; discriminate).
  cbv zeta. rewrite (listing_loop_stops kvs bad rest Hbad). cbn [res events].
  split; [reflexivity|].
  rewrite length_app, length_map. cbn [length].
  replace (length kvs + S (length rest))%nat
    with (length kvs + 1 + length rest)%nat by lia.
  autorewrite with cov_printed. rewrite printed_prints. reflexivity.
Qed.

(** X5. When the response is a success whose [result] is false in
    Python's sense (absent, null, an empty object) or whose [result.rules]
    is (absent, null, an empty list), [list_existing_rules] prints the
    header and "No existing rules found." and nothing else. *)
Theorem listing_reports_none (s : St W) (j r : json) :
  fst (provider (world s) (list_request token zone)) = Responded (Some j) ->
  py_get j "success" JNull = Ok (JBool true) ->
  py_get j "result" JNull = Ok r ->
  truthy r = false
  \/ (exists c, py_get r "rules" JNull = Ok c /\ truthy c = false) ->
  let run := list_existing_rules provider token zone s in
  res run = Ok tt
  /\ printed (events run) = [listing_header; no_rules_line].
Proof.
  intros Ho Hs Hr Hnone. cbv zeta.
  assert (Hres : outcome_result (Responded (Some j)) = Ok j).
  { cbn. rewrite Hs. reflexivity. }
  unfold list_existing_rules. rewrite bind_print by reflexivity.
  change "GET" with (method_name GET).
  rewrite guarded_call_run
    by (intros; (repeat quiet_step) || (apply printable_failure; reflexivity)).
  cbv zeta. fold (list_request token zone).
  unfold guarded_events.
  rewrite Ho, Hres, (guarded_result_passes _ (passes_ok _ _ Hres)). cbv beta.
  rewrite Hr, bind_ok.
  destruct (truthy r) eqn:Htr.
  - destruct Hnone as [|(c & Hc & Htc)]; [discriminate|].
    rewrite (py_get_subscript _ _ _ Hr Htr), bind_ok, Hc, bind_ok, Htc.
    rewrite print_ok by reflexivity. split; reflexivity.
  - rewrite bind_ret, Htr. rewrite print_ok by reflexivity.
    split; reflexivity.
Qed.

(** X6. When the call fails without being cut short (the API reports an
    error, the transport fails, the body is not a JSON object),
    [list_existing_rules] prints the header and then, in the handler, one
    line with the failure, and returns normally, provided the text of the
    failure can be written.  When it cannot (the [errors] of the response
    is a string that holds a lone surrogate), nothing follows the header
    and the [UnicodeEncodeError] of that [print] leaves the function. *)
Theorem listing_reports_failure (s : St W) (e : exn) :
  let o := fst (provider (world s) (list_request token zone)) in
  outcome_result o = Raise e ->
  interrupted o = false ->
  let run := list_existing_rules provider token zone s in
  res run = (if exn_encodable e then Ok tt else Raise UnicodeEncodeError)
  /\ printed (events run) =
     listing_header
     :: (if exn_encodable e then [listing_failed_line e] else []).
Proof.
  cbv zeta. intros He Hi.
  unfold list_existing_rules. rewrite bind_print by reflexivity.
  change "GET" with (method_name GET).
  rewrite guarded_call_run
    by (intros; (repeat quiet_step) || (apply printable_failure; reflexivity)).
  cbv zeta. fold (list_request token zone).
  unfold guarded_events. rewrite guarded_result_cases.
  unfold loggable. rewrite He, Hi, (outcome_result_exn _ _ He), Hi.
  cbn [negb andb prepend res events app].
  destruct (exn_encodable e); split; reflexivity.
Qed.

(** ** Deleting *)

(** X7. [delete_all_rules] makes exactly one call, the PUT of
    [{rules: []}] to the zone's entrypoint, and takes nothing from the
    keyboard.  After its header it prints "All rules deleted!" exactly
    when the provider answered an object with a true [success], and the
    failure line when the call failed with a text that can be written.  It
    returns normally in these cases; a Ctrl-C during the PUT leaves it as
    [KeyboardInterrupt], and a failure whose text cannot be written as the
    [UnicodeEncodeError] of the handler's [print], with nothing printed
    after the header. *)
Theorem delete_all_rules_soft (s : St W) :
  let rq := mkRequest PUT (entrypoint_url zone) (auth_headers token)
              (Some (JObj [("rules", JArr [])])) in
  let ow := provider (world s) rq in
  let r := delete_all_rules provider token zone s in
  http_requests (events r) = [rq]
  /\ final r = mkSt (snd ow) (stdin s)
  /\ res r = (if interrupted (fst ow) then Raise KeyboardInterrupt
              else if loggable (fst ow) then Ok tt
              else Raise UnicodeEncodeError)
  /\ printed (events r) =
     deleting_header
     :: match outcome_result (fst ow) with
        | Ok _ => [deleted_line]
        | Raise e =>
            if is_Exception e && exn_encodable e
            then [delete_failed_line e] else []
        end
  /\ (In deleted_line (printed (events r)) <->
      exists j v, fst ow = Responded (Some j)
                  /\ py_get j "success" JNull = Ok v /\ truthy v = true).
Proof.
  cbv zeta. rewrite delete_all_rules_run. cbv zeta.
  unfold delete_request, request_of. fold (entrypoint_url zone).
  cbn [res final events]. rewrite guarded_result_cases.
  set (rq := mkRequest PUT (entrypoint_url zone) (auth_headers token)
               (Some (JObj [("rules", JArr [])]))).
  destruct (provider (world s) rq) as [o w']. cbn [fst snd].
  autorewrite with cov_trace cov_printed. rewrite printed_report.
  fold deleted_line.
  repeat split.
  - intros H. cbn [In] in H. destruct H as [H|H]; [discriminate|].
    destruct (outcome_result o) as [j|e] eqn:Ho.
    + destruct (outcome_result_ok_inv _ _ Ho) as (-> & v & Hv & Htv).
      exists j, v. auto.
    + destruct (is_Exception e && exn_encodable e); cbn in H;
        intuition discriminate.
  - intros (j & v & -> & Hv & Htv). cbn. rewrite Hv, Htv. cbn. auto.
Qed.

(** ** Settings *)

Lemma set_setting_row_run (row : string * string * string) (s : St W) :
  plain_row row ->
  set_setting provider token zone row s =
  let ow := provider (world s) (setting_request token zone row) in
  mkRun (guarded_result (fst ow)) (mkSt (snd ow) (stdin s))
    (setting_events token zone row (fst ow)).
Proof. destruct row as [[setting value] message]. apply set_setting_run. Qed.

(** The loop of [configure_security_settings], when no PATCH ends it:
    every row gets its turn. *)
Lemma settings_loop_run (rows : list (string * string * string)) :
  Forall plain_row rows ->
  forall s : St W,
    let ow := outcomes_of provider (world s)
                (map (setting_request token zone) rows) in
    Forall (fun o => passes o = true) (fst ow) ->
    for_each rows (set_setting provider token zone) s =
    mkRun (Ok tt) (mkSt (snd ow) (stdin s))
      (settings_loop_events token zone rows (fst ow)).
Proof.
  induction 1 as [|row rows Hrow _ IH]; intros s; cbv zeta.
  - intros _. destruct s; reflexivity.
  - cbn [map outcomes_of fst snd]. intros Hos.
    inversion Hos as [|o os Ho Hos' E]; subst; clear Hos.
    cbn [for_each].
    erewrite bind_run.
    2:{ rewrite set_setting_row_run by exact Hrow. cbv zeta.
        rewrite (guarded_result_passes _ Ho). reflexivity. }
    rewrite (IH (mkSt _ (stdin s)) Hos'). reflexivity.
Qed.

Lemma http_requests_settings_loop (rows : list (string * string * string)) :
  forall os : list HttpOutcome,
    length os = length rows ->
    http_requests (settings_loop_events token zone rows os) =
    map (setting_request token zone) rows.
Proof.
  induction rows as [|row rows IH]; intros [|o os] Hlen;
    try discriminate; [reflexivity|].
  cbn [settings_loop_events setting_events app map].
  autorewrite with cov_trace. rewrite IH by (cbn in Hlen; lia).
  reflexivity.
Qed.

Lemma settings_loop_events_nth (rows : list (string * string * string)) :
  forall (os : list HttpOutcome) (i : nat) row o,
    nth_error rows i = Some row ->
    nth_error os i = Some o ->
    settings_loop_events token zone rows os =
    settings_loop_events token zone (firstn i rows) (firstn i os)
    ++ setting_events token zone row o
    ++ settings_loop_events token zone (skipn (S i) rows) (skipn (S i) os).
Proof.
  induction rows as [|r rows IH]; intros os i row o Hr Ho.
  - destruct i; discriminate.
  - destruct os as [|o' os]; [destruct i; discriminate|].
    destruct i as [|i].
    + cbn in Hr, Ho. injection Hr as ->. injection Ho as ->. reflexivity.
    + cbn in Hr, Ho. cbn [firstn skipn settings_loop_events].
      rewrite (IH os i row o Hr Ho), <- app_assoc. reflexivity.
Qed.

Lemma configure_security_settings_run (s : St W) :
  patches_complete provider token zone s ->
  configure_security_settings provider token zone s =
  let ow := patch_outcomes provider token zone s in
  mkRun (Ok tt) (mkSt (snd ow) (stdin s))
    (EPrint configuring_header
     :: settings_loop_events token zone settings (fst ow) ++ [EPrint []]).
Proof.
  intros Hp. unfold configure_security_settings.
  rewrite bind_print by reflexivity.
  erewrite bind_run
    by (apply settings_loop_run; [apply settings_plain|exact Hp]).
  rewrite print_ok by reflexivity. reflexivity.
Qed.

(** X8. When no PATCH of the run ends the loop (none is cut short by
    Ctrl-C, none fails with a text that cannot be printed),
    [configure_security_settings] returns normally whatever the outcomes
    of its PATCHes are.  It makes five calls and no other: one PATCH per
    row of the table, in the order of the table, to
    [/zones/{zone}/settings/{setting}] with body [{value: ...}]
    (security_level medium, browser_check on, always_use_https on,
    min_tls_version 1.2, tls_1_3 on).  Each PATCH is followed by its own
    line, the confirmation or the failure; after a failed PATCH come
    exactly the PATCHes of the later rows. *)
Theorem settings_patched_in_table_order (s : St W) :
  patches_complete provider token zone s ->
  let os := fst (patch_outcomes provider token zone s) in
  let r := configure_security_settings provider token zone s in
  res r = Ok tt
  /\ stdin (final r) = stdin s
  /\ events r =
     EPrint configuring_header
     :: settings_loop_events token zone settings os ++ [EPrint []]
  /\ map (fun rq => (rq_method rq, rq_url rq, rq_headers rq, rq_json rq))
       (http_requests (events r)) =
     map (fun p =>
            (PATCH,
             (API_BASE ++ "/zones/" ++ zone ++ "/settings/" ++ fst p)%string,
             auth_headers token,
             Some (JObj [("value", JStr (snd p))])))
       [("security_level", "medium"); ("browser_check", "on");
        ("always_use_https", "on"); ("min_tls_version", "1.2");
        ("tls_1_3", "on")]
  /\ forall i row o e,
       nth_error settings i = Some row ->
       nth_error os i = Some o ->
       outcome_result o = Raise e ->
       exists before after,
         events r =
         before
         ++ [EHttp (setting_request token zone row) o;
             EPrint (setting_failed_line row e)]
         ++ after
         /\ http_requests after =
            map (setting_request token zone) (skipn (S i) settings).
Proof.
  intros Hp. cbv zeta.
  assert (Hlen : length (fst (patch_outcomes provider token zone s))
                 = length settings).
  { unfold patch_outcomes. rewrite length_outcomes_of, length_map.
    reflexivity. }
  rewrite (configure_security_settings_run s Hp). cbv zeta.
  cbn [res final events stdin].
  set (os := fst (patch_outcomes provider token zone s)) in *.
  split; [reflexivity|]. split; [reflexivity|]. split; [reflexivity|]. split.
  - autorewrite with cov_trace.
    rewrite http_requests_settings_loop by exact Hlen. reflexivity.
  - intros i row o e Hrow Ho He.
    assert (Hexn : is_Exception e && exn_encodable e = true).
    { rewrite <- (passes_exn _ _ He).
      unfold patches_complete in Hp. rewrite Forall_forall in Hp.
      exact (Hp o (nth_error_In _ _ Ho)). }
    rewrite (settings_loop_events_nth _ _ i row o Hrow Ho).
    unfold setting_events at 1, report. rewrite He, Hexn.
    exists (EPrint configuring_header
            :: settings_loop_events token zone (firstn i settings)
                 (firstn i os)),
           (settings_loop_events token zone (skipn (S i) settings)
              (skipn (S i) os) ++ [EPrint []]).
    split.
    + cbn [app]. rewrite <- !app_assoc. reflexivity.
    + autorewrite with cov_trace.
      rewrite http_requests_settings_loop, app_nil_r.
      * reflexivity.
      * rewrite !length_skipn, Hlen. reflexivity.
Qed.

(** ** What the loops do when a call stops them *)

Lemma http_requests_add_rule_events (target : string) (i : Z) (rule : json)
    (o : HttpOutcome) :
  http_requests (add_rule_events token target i rule o) =
  [post_request token target rule].
Proof.
  unfold add_rule_events. autorewrite with cov_trace. reflexivity.
Qed.

Lemma add_loop_any (id : json) (rules : list json) :
  Forall described rules ->
  forall (i : Z) (s : St W),
    let r := for_enumerate i rules (add_rule provider py_str token zone id) s in
    exists k,
      (k <= length rules)%nat
      /\ http_requests (events r) =
         map (post_request token (rules_url py_str zone id)) (firstn k rules)
      /\ stdin (final r) = stdin s
      /\ (res r = Ok tt /\ k = length rules
          \/ res r = Raise KeyboardInterrupt
          \/ res r = Raise UnicodeEncodeError).
Proof.
  induction 1 as [|rule rules Hd _ IH]; intros i s; cbv zeta.
  - exists 0%nat. cbn. repeat split; auto.
  - cbn [for_enumerate].
    pose proof (add_rule_run _ provider py_str token zone id i rule s Hd) as E.
    cbv zeta in E. unfold guarded_result in E.
    destruct (passes (fst (provider (world s) _))).
    + erewrite bind_run by exact E.
      destruct (IH (i + 1)%Z
                  (mkSt (snd (provider (world s)
                                (mkRequest POST (rules_url py_str zone id)
                                   (auth_headers token) (Some rule))))
                     (stdin s)))
        as (k & Hk & Hq & Hs & Hr).
      exists (S k). unfold prepend. cbn [res final events length firstn map].
      rewrite http_requests_app, http_requests_add_rule_events, Hq, Hs.
      repeat split; auto; [lia|].
      destruct Hr as [[Hr ->]|Hr]; auto.
    + erewrite bind_run_raise by exact E. exists 1%nat.
      cbn [res final events stdin length firstn map].
      rewrite http_requests_add_rule_events.
      repeat split; auto; [lia|]. right.
      destruct (stopper_cases
                  (fst (provider (world s)
                          (mkRequest POST (rules_url py_str zone id)
                             (auth_headers token) (Some rule))))) as [->| ->];
        auto.
Qed.

(** X9. Whatever the provider does, the calls of [add_security_rules]
    are the GET of the entrypoint followed by POSTs of the first [k] rules
    of the table, in the order of the table and all to one address: it
    never deletes or replaces anything.  It takes nothing from the
    keyboard.  When it returns normally it has POSTed all five rules; what
    can leave it otherwise is the [KeyboardInterrupt] of a POST cut short
    or the [UnicodeEncodeError] of a failure line that could not be
    written. *)
Theorem add_security_rules_only_posts (s : St W) :
  let o0 := fst (provider (world s) (list_request token zone)) in
  let r := add_security_rules provider py_str token zone s in
  exists k,
    (k <= 5)%nat
    /\ http_requests (events r) =
       list_request token zone
       :: map (post_request token (target_of py_str zone o0))
            (firstn k SECURITY_RULES)
    /\ stdin (final r) = stdin s
    /\ (res r = Ok tt /\ k = 5%nat
        \/ res r = Raise KeyboardInterrupt
        \/ res r = Raise UnicodeEncodeError).
Proof.
  cbv zeta. unfold add_security_rules. rewrite bind_print by reflexivity.
  erewrite bind_run by apply resolve_run.
  match goal with
  | |- context [bind (for_enumerate 1 SECURITY_RULES ?body) ?K ?s1] =>
      destruct (add_loop_any
                  (resolved_id (fst (provider (world s)
                                       (list_request token zone))))
                  SECURITY_RULES (rules_described) 1 s1)
        as (k & Hk & Hq & Hs & Hr);
      cbv zeta in Hq, Hs, Hr;
      remember (for_enumerate 1 SECURITY_RULES body s1) as loop eqn:Eloop;
      assert (E : bind (for_enumerate 1 SECURITY_RULES body) K s1 =
                  bind (fun _ => loop) K s1)
        by (unfold bind; rewrite <- Eloop; reflexivity);
      rewrite E; clear E
  end.
  exists k. unfold prepend, bind. cbn [res final events].
  destruct Hr as [[Hr ->]|[Hr|Hr]]; rewrite Hr;
    rewrite ?print_ok by reflexivity; cbn [res final events];
    autorewrite with cov_trace; rewrite Hq, Hs, ?app_nil_r;
    repeat split; auto.
Qed.

Lemma http_requests_setting_events (row : string * string * string)
    (o : HttpOutcome) :
  http_requests (setting_events token zone row o) =
  [setting_request token zone row].
Proof.
  unfold setting_events. autorewrite with cov_trace. reflexivity.
Qed.

Lemma settings_loop_any (rows : list (string * string * string)) :
  Forall plain_row rows ->
  forall s : St W,
    let r := for_each rows (set_setting provider token zone) s in
    exists k,
      (k <= length rows)%nat
      /\ http_requests (events r) =
         map (setting_request token zone) (firstn k rows)
      /\ stdin (final r) = stdin s
      /\ (res r = Ok tt /\ k = length rows
          \/ res r = Raise KeyboardInterrupt
          \/ res r = Raise UnicodeEncodeError).
Proof.
  induction 1 as [|row rows Hrow _ IH]; intros s; cbv zeta.
  - exists 0%nat. cbn. repeat split; auto.
  - cbn [for_each].
    pose proof (set_setting_row_run row s Hrow) as E.
    cbv zeta in E. unfold guarded_result in E.
    destruct (passes (fst (provider (world s) _))).
    + erewrite bind_run by exact E.
      destruct (IH (mkSt (snd (provider (world s)
                                 (setting_request token zone row)))
                      (stdin s)))
        as (k & Hk & Hq & Hs & Hr).
      exists (S k). unfold prepend. cbn [res final events length firstn map].
      rewrite http_requests_app, http_requests_setting_events, Hq, Hs.
      repeat split; auto; [lia|].
      destruct Hr as [[Hr ->]|Hr]; auto.
    + erewrite bind_run_raise by exact E. exists 1%nat.
      cbn [res final events stdin length firstn map].
      rewrite http_requests_setting_events.
      repeat split; auto; [lia|]. right.
      destruct (stopper_cases
                  (fst (provider (world s)
                          (setting_request token zone row)))) as [->| ->];
        auto.
Qed.

(** X10. Whatever the provider does, the calls of
    [configure_security_settings] are PATCHes of the first [k] rows of its
    table, in the order of the table, and nothing else.  It takes nothing
    from the keyboard.  When it returns normally it has PATCHed all five
    settings; what can leave it otherwise is the [KeyboardInterrupt] of a
    PATCH cut short or the [UnicodeEncodeError] of a failure line that
    could not be written. *)
Theorem configure_only_patches (s : St W) :
  let r := configure_security_settings provider token zone s in
  exists k,
    (k <= 5)%nat
    /\ http_requests (events r) =
       map (setting_request token zone) (firstn k settings)
    /\ stdin (final r) = stdin s
    /\ (res r = Ok tt /\ k = 5%nat
        \/ res r = Raise KeyboardInterrupt
        \/ res r = Raise UnicodeEncodeError).
Proof.
  cbv zeta. unfold configure_security_settings.
  rewrite bind_print by reflexivity.
  match goal with
  | |- context [bind (for_each settings ?body) ?K ?s1] =>
      destruct (settings_loop_any settings settings_plain s1)
        as (k & Hk & Hq & Hs & Hr);
      cbv zeta in Hq, Hs, Hr;
      remember (for_each settings body s1) as loop eqn:Eloop;
      assert (E : bind (for_each settings body) K s1 =
                  bind (fun _ => loop) K s1)
        by (unfold bind; rewrite <- Eloop; reflexivity);
      rewrite E; clear E
  end.
  exists k. unfold prepend, bind. cbn [res final events].
  destruct Hr as [[Hr ->]|[Hr|Hr]]; rewrite Hr;
    rewrite ?print_ok by reflexivity; cbn [res final events];
    autorewrite with cov_trace; rewrite Hq, Hs, ?app_nil_r;
    repeat split; auto.
Qed.

(** ** What a computation takes from the keyboard *)

Lemma reads_weaken {A} (n n' : nat) (m : M W A) :
  reads n m -> (n <= n')%nat -> reads n' m.
Proof.
  intros H Hle s. destruct (H s) as (k & Hk & E). exists k. split; [lia|auto].
Qed.

Lemma reads_kept {A} (m : M W A) :
  (forall s, stdin (final (m s)) = stdin s) -> reads 0 m.
Proof. intros H s. exists 0%nat. split; [lia|apply H]. Qed.

Lemma reads_ret {A} (a : A) : reads 0 (@ret W A a).
Proof. apply reads_kept. reflexivity. Qed.

Lemma reads_raise {A} (e : exn) : reads 0 (@raise W A e).
Proof. apply reads_kept. reflexivity. Qed.

Lemma reads_lift {A} (r : Res A) : reads 0 (@lift W A r).
Proof. apply reads_kept. destruct r; reflexivity. Qed.

Lemma reads_print (l : list piece) : reads 0 (@print W l).
Proof.
  apply reads_kept. intros s. rewrite print_run.
  destruct (printable l); reflexivity.
Qed.

Lemma reads_input (prompt : string) : reads 1 (@input W prompt).
Proof.
  intros s. exists 1%nat. split; [lia|]. unfold input.
  destruct (stdin s) as [|[l|] keys] eqn:E; cbn; rewrite ?E; reflexivity.
Qed.

Lemma reads_requests m url headers data :
  reads 0 (requests provider m url headers data).
Proof.
  apply reads_kept. intros s. unfold requests.
  destruct (provider (world s) _) as [[| |] w']; reflexivity.
Qed.

Lemma reads_response_json (body : option json) :
  reads 0 (@response_json W body).
Proof. apply reads_kept. destruct body; reflexivity. Qed.

Lemma reads_bind {A B} (a b : nat) (m : M W A) (k : A -> M W B) :
  reads a m -> (forall x, reads b (k x)) -> reads (a + b) (bind m k).
Proof.
  intros Hm Hk s. unfold bind. destruct (Hm s) as (ka & Hka & Ea).
  destruct (res (m s)) as [x|e]; cbn [final].
  - destruct (Hk x (final (m s))) as (kb & Hkb & Eb).
    exists (kb + ka)%nat. split; [lia|].
    rewrite Eb, Ea, skipn_skipn. reflexivity.
  - exists ka. split; [lia|exact Ea].
Qed.

Lemma reads_try {A} (a b : nat) (m : M W A) (handles : exn -> option (M W A)) :
  reads a m -> (forall e h, handles e = Some h -> reads b h) ->
  reads (a + b) (try_except m handles).
Proof.
  intros Hm Hh s. unfold try_except. destruct (Hm s) as (ka & Hka & Ea).
  destruct (res (m s)) as [x|e].
  - exists ka. split; [lia|exact Ea].
  - destruct (handles e) as [h|] eqn:He.
    + destruct (Hh e h He (final (m s))) as (kb & Hkb & Eb).
      exists (kb + ka)%nat. split; [lia|]. cbn [final].
      rewrite Eb, Ea, skipn_skipn. reflexivity.
    + exists ka. split; [lia|exact Ea].
Qed.

Lemma reads_bind_0 {A B} (n : nat) (m : M W A) (k : A -> M W B) :
  reads 0 m -> (forall x, reads n (k x)) -> reads n (bind m k).
Proof. intros Hm Hk. exact (reads_bind 0 n m k Hm Hk). Qed.

Lemma reads_bind_r {A B} (n : nat) (m : M W A) (k : A -> M W B) :
  reads n m -> (forall x, reads 0 (k x)) -> reads n (bind m k).
Proof.
  intros Hm Hk. apply reads_weaken with (n := (n + 0)%nat); [|lia].
  exact (reads_bind n 0 m k Hm Hk).
Qed.

Lemma reads_try_0 {A} (m : M W A) (handles : exn -> option (M W A)) :
  reads 0 m -> (forall e h, handles e = Some h -> reads 0 h) ->
  reads 0 (try_except m handles).
Proof. intros Hm Hh. exact (reads_try 0 0 m handles Hm Hh). Qed.

Lemma reads_except_Exception {A} (n : nat) (h : exn -> M W A) :
  (forall e, reads n (h e)) ->
  forall e h', except_Exception h e = Some h' -> reads n h'.
Proof.
  intros H e h'. unfold except_Exception.
  destruct (is_Exception e); [|discriminate]. intros [= <-]. apply H.
Qed.

Lemma reads_except_all {A} (n : nat) (h : M W A) :
  reads n h -> forall e h', except_all h e = Some h' -> reads n h'.
Proof. intros H e h' [= <-]. exact H. Qed.

Lemma reads_for_enumerate {A} (body : Z -> A -> M W unit) (l : list A) :
  (forall i x, reads 0 (body i x)) -> forall i, reads 0 (for_enumerate i l body).
Proof.
  intros Hb. induction l as [|x l IH]; intros i; cbn [for_enumerate].
  - apply reads_ret.
  - apply reads_bind_0; auto.
Qed.

Lemma reads_for_each {A} (body : A -> M W unit) (l : list A) :
  (forall x, reads 0 (body x)) -> reads 0 (for_each l body).
Proof.
  intros Hb. induction l as [|x l IH]; cbn [for_each].
  - apply reads_ret.
  - apply reads_bind_0; auto.
Qed.

Ltac reads_step :=
  lazymatch goal with
  | |- reads 0 (ret _) => apply reads_ret
  | |- reads 0 (raise _) => apply reads_raise
  | |- reads 0 (sys_exit _) => apply reads_raise
  | |- reads 0 (lift _) => apply reads_lift
  | |- reads 0 (print _) => apply reads_print
  | |- reads 0 (requests _ _ _ _ _) => apply reads_requests
  | |- reads 0 (response_json _) => apply reads_response_json
  | |- reads 0 (bind _ _) => apply reads_bind_0; [|intro]
  | |- reads 0 (try_except _ (except_Exception _)) =>
      apply reads_try_0; [|apply reads_except_Exception; intro]
  | |- reads 0 (try_except _ (except_all _)) =>
      apply reads_try_0; [|apply reads_except_all]
  | |- reads 0 (for_enumerate _ _ _) => apply reads_for_enumerate; intros
  | |- reads 0 (for_each _ _) => apply reads_for_each; intros
  | |- reads 0 (if ?b then _ else _) => destruct b
  end.

Ltac reads0 := repeat reads_step.

Lemma reads_make_request endpoint method data :
  reads 0 (make_request provider token endpoint method data).
Proof. unfold make_request. reads0. Qed.

Ltac reads_op :=
  lazymatch goal with
  | |- reads 0 (make_request _ _ _ _ _) => apply reads_make_request
  | |- _ => reads_step
  end.

Lemma reads_list_existing_rules :
  reads 0 (list_existing_rules provider token zone).
Proof. unfold list_existing_rules. repeat reads_op. Qed.

Lemma reads_delete_all_rules : reads 0 (delete_all_rules provider token zone).
Proof. unfold delete_all_rules. repeat reads_op. Qed.

Lemma reads_add_security_rules :
  reads 0 (add_security_rules provider py_str token zone).
Proof.
  unfold add_security_rules. repeat reads_op.
  unfold add_rule. repeat reads_op.
Qed.

Lemma reads_set_setting (row : string * string * string) :
  reads 0 (set_setting provider token zone row).
Proof.
  destruct row as [[setting value] message]. unfold set_setting.
  repeat reads_op.
Qed.

Lemma reads_configure_security_settings :
  reads 0 (configure_security_settings provider token zone).
Proof.
  unfold configure_security_settings. repeat reads_op.
  apply reads_set_setting.
Qed.

Lemma reads_sys_exit {A} (code : Z) : reads 0 (@sys_exit W A code).
Proof. apply reads_raise. Qed.

Ltac ops0 :=
  repeat
    lazymatch goal with
    | |- reads 0 (list_existing_rules _ _ _) =>
        apply reads_list_existing_rules
    | |- reads 0 (delete_all_rules _ _ _) => apply reads_delete_all_rules
    | |- reads 0 (add_security_rules _ _ _ _) =>
        apply reads_add_security_rules
    | |- reads 0 (configure_security_settings _ _ _) =>
        apply reads_configure_security_settings
    | |- reads 0 (input _) => fail
    | |- _ => reads_step
    end.

Ltac reads1 :=
  repeat
    lazymatch goal with
    | |- reads 1 (input _) => apply reads_input
    | |- reads 1 (if ?b then _ else _) => destruct b
    | |- reads 1 (bind _ _) =>
        first [ apply reads_bind_0; [solve [ops0] | intro]
              | apply reads_bind_r; [ | intro; solve [ops0]] ]
    | |- reads 1 _ =>
        apply reads_weaken with (n := 0%nat); [solve [ops0] | lia]
    end.

Lemma reads_main (args : list string) :
  reads 1 (main provider py_str token zone args).
Proof. unfold main. reads1. Qed.

Lemma reads_script (args : list string) :
  reads 1 (script provider py_str token zone args).
Proof.
  unfold script.
  apply reads_weaken with (n := (1 + 0)%nat); [|lia].
  apply reads_try; [apply reads_main|].
  intros e h. destruct e; cbn; intros [= <-]; ops0.
Qed.

(** X11. A run takes at most one line from the keyboard, whatever its
    arguments, the provider and the keyboard: what is left of the queue at
    the end is the queue itself or the queue without its first entry. *)
Theorem run_reads_at_most_one_line (args : list string) (w : W)
    (keys : list StdinEvent) :
  let r := run provider py_str token zone args w keys in
  stdin (final r) = keys \/ stdin (final r) = tl keys.
Proof.
  cbv zeta. unfold run.
  destruct (reads_script args (mkSt w keys)) as (k & Hk & E).
  cbn [stdin] in E. rewrite E.
  destruct k as [|[|k]]; [left|right|lia]; [reflexivity|].
  destruct keys; reflexivity.
Qed.

(** ** Where the calls go *)

Lemma prefix_app (a b c : string) :
  String.prefix (a ++ b) (a ++ c) = String.prefix b c.
Proof.
  induction a as [|x a IH]; [reflexivity|]. cbn.
  destruct (ascii_dec x x) as [_|H]; [exact IH|destruct (H eq_refl)].
Qed.

Lemma zone_prefix (rest : string) :
  String.prefix (API_BASE ++ "/zones/" ++ zone ++ "/")
    (API_BASE ++ "/zones/" ++ zone ++ "/" ++ rest) = true.
Proof.
  rewrite !prefix_app.
  change (String.prefix ("/" ++ "") ("/" ++ rest) = true).
  rewrite prefix_app. destruct rest; reflexivity.
Qed.

Lemma calls_none {A} (P : Request -> Prop) (m : M W A) :
  (forall s, http_requests (events (m s)) = []) -> calls P m.
Proof. intros H s. rewrite H. constructor. Qed.

Lemma calls_ret {A} P (a : A) : calls P (@ret W A a).
Proof. apply calls_none. reflexivity. Qed.

Lemma calls_raise {A} P (e : exn) : calls P (@raise W A e).
Proof. apply calls_none. reflexivity. Qed.

Lemma calls_sys_exit {A} P (code : Z) : calls P (@sys_exit W A code).
Proof. apply calls_none. reflexivity. Qed.

Lemma calls_lift {A} P (r : Res A) : calls P (@lift W A r).
Proof. apply calls_none. destruct r; reflexivity. Qed.

Lemma calls_print P (l : list piece) : calls P (@print W l).
Proof.
  apply calls_none. intros s. rewrite print_run.
  destruct (printable l); reflexivity.
Qed.

Lemma calls_input P (prompt : string) : calls P (@input W prompt).
Proof.
  apply calls_none. intros s. unfold input.
  destruct (stdin s) as [|[l|] keys]; reflexivity.
Qed.

Lemma calls_response_json P (body : option json) :
  calls P (@response_json W body).
Proof. apply calls_none. destruct body; reflexivity. Qed.

Lemma calls_requests (P : Request -> Prop) m url headers data :
  P (mkRequest m url headers data) ->
  calls P (requests provider m url headers data).
Proof.
  intros H s. unfold requests.
  destruct (provider (world s) _) as [[| |] w']; cbn; repeat constructor;
    exact H.
Qed.

Lemma calls_bind {A B} P (m : M W A) (k : A -> M W B) :
  calls P m -> (forall x, calls P (k x)) -> calls P (bind m k).
Proof.
  intros Hm Hk s. unfold bind. destruct (res (m s)) as [x|e]; cbn [events].
  - rewrite http_requests_app. apply Forall_app. split; [apply Hm|apply Hk].
  - apply Hm.
Qed.

Lemma calls_try {A} P (m : M W A) (handles : exn -> option (M W A)) :
  calls P m -> (forall e h, handles e = Some h -> calls P h) ->
  calls P (try_except m handles).
Proof.
  intros Hm Hh s. unfold try_except. destruct (res (m s)) as [x|e].
  - apply Hm.
  - destruct (handles e) as [h|] eqn:He; [|apply Hm]. cbn [events].
    rewrite http_requests_app. apply Forall_app.
    split; [apply Hm|apply (Hh e h He)].
Qed.

Lemma calls_except_Exception {A} P (h : exn -> M W A) :
  (forall e, calls P (h e)) ->
  forall e h', except_Exception h e = Some h' -> calls P h'.
Proof.
  intros H e h'. unfold except_Exception.
  destruct (is_Exception e); [|discriminate]. intros [= <-]. apply H.
Qed.

Lemma calls_except_all {A} P (h : M W A) :
  calls P h -> forall e h', except_all h e = Some h' -> calls P h'.
Proof. intros H e h' [= <-]. exact H. Qed.

Lemma calls_for_enumerate {A} P (body : Z -> A -> M W unit) (l : list A) :
  (forall i x, calls P (body i x)) -> forall i, calls P (for_enumerate i l body).
Proof.
  intros Hb. induction l as [|x l IH]; intros i; cbn [for_enumerate].
  - apply calls_ret.
  - apply calls_bind; auto.
Qed.

Lemma calls_for_each {A} P (body : A -> M W unit) (l : list A) :
  (forall x, calls P (body x)) -> calls P (for_each l body).
Proof.
  intros Hb. induction l as [|x l IH]; cbn [for_each].
  - apply calls_ret.
  - apply calls_bind; auto.
Qed.

Ltac calls_step :=
  lazymatch goal with
  | |- calls _ (ret _) => apply calls_ret
  | |- calls _ (raise _) => apply calls_raise
  | |- calls _ (sys_exit _) => apply calls_sys_exit
  | |- calls _ (lift _) => apply calls_lift
  | |- calls _ (print _) => apply calls_print
  | |- calls _ (input _) => apply calls_input
  | |- calls _ (response_json _) => apply calls_response_json
  | |- calls _ (bind _ _) => apply calls_bind; [|intro]
  | |- calls _ (try_except _ (except_Exception _)) =>
      apply calls_try; [|apply calls_except_Exception; intro]
  | |- calls _ (try_except _ (except_all _)) =>
      apply calls_try; [|apply calls_except_all]
  | |- calls _ (for_enumerate _ _ _) => apply calls_for_enumerate; intros
  | |- calls _ (for_each _ _) => apply calls_for_each; intros
  | |- calls _ (if ?b then _ else _) => destruct b
  end.

Ltac calls0 := repeat calls_step.

Lemma calls_make_request (endpoint method : string) (data : option json) :
  String.prefix (API_BASE ++ "/zones/" ++ zone ++ "/") (API_BASE ++ endpoint)
  = true ->
  calls (to_the_zone token zone)
    (make_request provider token endpoint method data).
Proof.
  intros H. unfold make_request. calls0;
    apply calls_requests; (split; [reflexivity|exact H]).
Qed.

Lemma entrypoint_to_the_zone :
  String.prefix (API_BASE ++ "/zones/" ++ zone ++ "/")
    (API_BASE ++ entrypoint zone) = true.
Proof. apply (zone_prefix "rulesets/phases/http_request_firewall_custom/entrypoint"). Qed.

Lemma rules_endpoint_to_the_zone (id : json) :
  String.prefix (API_BASE ++ "/zones/" ++ zone ++ "/")
    (API_BASE ++ rules_endpoint py_str zone id) = true.
Proof.
  unfold rules_endpoint. destruct (truthy id).
  - apply (zone_prefix ("rulesets/" ++ py_str id ++ "/rules")).
  - apply entrypoint_to_the_zone.
Qed.

Ltac calls_ops :=
  repeat
    lazymatch goal with
    | |- calls _ (make_request _ _ (entrypoint _) _ _) =>
        apply calls_make_request, entrypoint_to_the_zone
    | |- calls _ (make_request _ _ (rules_endpoint _ _ _) _ _) =>
        apply calls_make_request, rules_endpoint_to_the_zone
    | |- _ => calls_step
    end.

Lemma calls_list_existing_rules :
  calls (to_the_zone token zone) (list_existing_rules provider token zone).
Proof. unfold list_existing_rules. calls_ops. Qed.

Lemma calls_delete_all_rules :
  calls (to_the_zone token zone) (delete_all_rules provider token zone).
Proof. unfold delete_all_rules. calls_ops. Qed.

Lemma calls_add_security_rules :
  calls (to_the_zone token zone)
    (add_security_rules provider py_str token zone).
Proof.
  unfold add_security_rules. calls_ops. unfold add_rule. calls_ops.
Qed.

Lemma calls_set_setting (row : string * string * string) :
  calls (to_the_zone token zone) (set_setting provider token zone row).
Proof.
  destruct row as [[setting value] message]. unfold set_setting. calls0.
  apply calls_make_request. apply (zone_prefix ("settings/" ++ setting)).
Qed.

Lemma calls_configure_security_settings :
  calls (to_the_zone token zone)
    (configure_security_settings provider token zone).
Proof.
  unfold configure_security_settings. calls0. apply calls_set_setting.
Qed.

Lemma calls_main (args : list string) :
  calls (to_the_zone token zone) (main provider py_str token zone args).
Proof.
  unfold main.
  repeat
    lazymatch goal with
    | |- calls _ (list_existing_rules _ _ _) =>
        apply calls_list_existing_rules
    | |- calls _ (delete_all_rules _ _ _) => apply calls_delete_all_rules
    | |- calls _ (add_security_rules _ _ _ _) =>
        apply calls_add_security_rules
    | |- calls _ (configure_security_settings _ _ _) =>
        apply calls_configure_security_settings
    | |- _ => calls_step
    end.
Qed.

(** X12. In every run, every call the script makes of a function of
    [requests] is given as [headers] exactly the bearer token of the
    configuration and the JSON content type, and as [url] a string that
    begins with the API base followed by [/zones/{ZONE_ID}/], whatever the
    arguments and whatever the provider answers.  The statement is about
    the arguments the script passes: what the library then makes of the
    rest of the url (a ruleset id is pasted into it as the provider
    returned it) is not part of it. *)
Theorem every_request_is_addressed_to_the_zone (args : list string) (w : W)
    (keys : list StdinEvent) :
  Forall (to_the_zone token zone)
    (http_requests (events (run provider py_str token zone args w keys))).
Proof.
  unfold run.
  destruct (script_run _ provider py_str token zone args (mkSt w keys))
    as (_ & -> & _).
  apply calls_main.
Qed.

(** ** The dispatcher, branch by branch *)

(** What the [__main__] block adds to the run of [main]. *)
Lemma script_cases (args : list string) (s : St W) :
  script provider py_str token zone args s =
  at_top (main provider py_str token zone args s).
Proof.
  unfold script, try_except, at_top.
  generalize (main provider py_str token zone args s). intros r.
  destruct (res r) as [[]|[]] eqn:Hr; cbn [except_Exception is_Exception];
    try reflexivity.
  unfold bind. rewrite print_run, printable_failure by reflexivity.
  destruct (exn_encodable (APIError errors)); cbn [res final events];
    rewrite ?app_nil_r; reflexivity.
Qed.

Ltac listing t Ht :=
  match goal with
  | |- context [bind (list_existing_rules provider token zone) ?K ?s] =>
      destruct (bind_listing _ provider token zone K s) as (t & Ht & ->);
      cbv zeta; cbn [world stdin]
  end.

Ltac enter_main Hv :=
  unfold run; rewrite script_cases; unfold main;
  rewrite (valid_config_check token zone Hv), !bind_print by reflexivity;
  cbv beta iota; rewrite bind_ret.

(** The [__main__] block only adds to the end of a run. *)
Lemma at_top_prepend (p : list Event) (m : Run W unit) :
  at_top (prepend p m) = prepend p (at_top m).
Proof.
  unfold at_top, prepend. cbn [res final events].
  destruct (res m) as [[]|[]] eqn:Hr; cbn [res final events exn_encodable];
    try destruct (str_encodable errors); cbn [res final events];
    rewrite ?Hr, ?app_assoc; reflexivity.
Qed.

Lemma at_top_ok (s : St W) (t : list Event) :
  at_top (mkRun (Ok tt) s t) = mkRun (Ok tt) s t.
Proof. reflexivity. Qed.

Ltac settle t Ht :=
  rewrite ?at_top_prepend; unfold at_top;
  cbn [prepend res final events app exit_status stdin world exn_encodable];
  autorewrite with cov_trace;
  rewrite ?(http_requests_prints t Ht), ?app_nil_r.

Lemma last_app_cons {A} (l : list A) (a : A) (m : list A) (d : A) :
  last (l ++ a :: m) d = last (a :: m) d.
Proof.
  induction l as [|x l IH]; [reflexivity|]. cbn [app]. rewrite <- IH.
  destruct (l ++ a :: m) eqn:E; [destruct l; discriminate|reflexivity].
Qed.

Lemma interrupted_loggable (o : HttpOutcome) :
  interrupted o = true -> loggable o = true.
Proof. destruct o; try discriminate. reflexivity. Qed.

(** The three ways a call can come out: cut short, failed beyond
    reporting, or passed. *)
Ltac outcome_cases :=
  unfold guarded_result, passes, stopper;
  match goal with
  | |- context [interrupted ?o] =>
      let Hi := fresh "Hi" in
      let Hlog := fresh "Hlog" in
      destruct (interrupted o) eqn:Hi;
      [rewrite ?(interrupted_loggable _ Hi)
      |destruct (loggable o) eqn:Hlog];
      cbn [negb andb]
  end.

Lemma prints_no_prompt (t : list Event) :
  forallb is_print t = true -> existsb is_prompt t = false.
Proof.
  induction t as [|[l|p|rq o] t IH]; cbn; try discriminate; auto.
Qed.

(** X13. With valid credentials and [--list] among the arguments, the
    run lists and does nothing else, whatever other flags are there: its
    only call is the listing GET, it shows no prompt and takes nothing from
    the keyboard.  Its exit status is 0, also when the GET fails or is cut
    short by Ctrl-C, except when the GET failed with a text that cannot be
    printed: then the error of the handler's [print] reaches the
    [__main__] block and the status is 1. *)
Theorem list_flag_only_lists (args : list string) (w : W)
    (keys : list StdinEvent) :
  valid_config token zone ->
  py_in "--list" args = true ->
  let o := fst (provider w (list_request token zone)) in
  let r := run provider py_str token zone args w keys in
  http_requests (events r) = [list_request token zone]
  /\ final r = mkSt (snd (provider w (list_request token zone))) keys
  /\ existsb is_prompt (events r) = false
  /\ exit_status (res r) = (if loggable o then 0 else 1)%Z.
Proof.
  intros Hv Hlist. cbv zeta. enter_main Hv. rewrite Hlist.
  destruct (list_existing_rules_run _ provider token zone (mkSt w keys))
    as (t & Ht & ->).
  cbv zeta. cbn [world stdin].
  pose proof (prints_no_prompt t Ht) as Hnp.
  outcome_cases; settle t Ht;
    cbn [existsb is_prompt orb]; rewrite ?existsb_app, Hnp; repeat split.
Qed.

(** X14. With valid credentials and none of [--list], [--delete] and
    [--setup] among the arguments ([--force] alone, an unknown flag, no
    argument at all), the run prints the banner and the usage text and
    nothing else: no call, nothing taken from the keyboard, exit
    status 0. *)
Theorem usage_without_command (args : list string) (w : W)
    (keys : list StdinEvent) :
  valid_config token zone ->
  py_in "--list" args = false ->
  py_in "--delete" args = false ->
  py_in "--setup" args = false ->
  let r := run provider py_str token zone args w keys in
  events r = banner ++ usage
  /\ final r = mkSt w keys
  /\ exit_status (res r) = 0%Z.
Proof.
  intros Hv Hlist Hdel Hsetup. cbv zeta. enter_main Hv.
  rewrite Hlist, Hdel, Hsetup. repeat split.
Qed.

Lemma always_passes_outcomes (rqs : list Request) :
  always_passes provider ->
  forall w, Forall (fun o => passes o = true)
              (fst (outcomes_of provider w rqs)).
Proof.
  intros Hp. induction rqs as [|rq rqs IH]; intros w; cbn.
  - constructor.
  - constructor; [apply Hp|apply IH].
Qed.

Lemma ends_prepend {A} (p u : list Event) (r : Run W A) :
  (exists t, events r = t ++ u) -> exists t, events (prepend p r) = t ++ u.
Proof.
  intros (t & E). exists (p ++ t). cbn [prepend events].
  rewrite E, app_assoc. reflexivity.
Qed.

Lemma summary_run (s : St W) :
  bind (print [T bar])
    (fun _ =>
       bind (print [T "✅  SETUP COMPLETE!"])
         (fun _ =>
            bind (print [T bar])
              (fun _ =>
                 bind (print [T nl])
                   (fun _ =>
                      bind (print [T "🎯 Next Steps:"])
                        (fun _ =>
                           bind (print [T "1. Visit https://dash.cloudflare.com and verify the rules"])
                             (fun _ =>
                                bind (print [T "2. Test your website to ensure no false positives"])
                                  (fun _ =>
                                     bind (print [T "3. Monitor Security → Events for blocked traffic"])
                                       (fun _ =>
                                          print [T ("4. Update Rule 5 with your development IP address" ++ nl)])))))))) s
  = mkRun (Ok tt) s summary.
Proof. reflexivity. Qed.

(** X15. With valid credentials, [--setup] without [--list] or
    [--delete], once the run may proceed ([--force] is there, or the line
    typed at the prompt lowers to "yes"), over a provider none of whose
    answers stops the script (no call cut short by Ctrl-C, no failure with
    a text that cannot be printed), the calls are, in this order: the
    listing GET, the GET that looks the ruleset up, the POSTs of the five
    rules in table order, the PATCHes of the five settings in table
    order.  The run ends with the completion summary and exit status 0,
    and has taken from the keyboard the answer only (nothing with
    [--force]). *)
Theorem setup_adds_then_configures (args : list string) (w : W)
    (keys keys' : list StdinEvent) :
  valid_config token zone ->
  always_passes provider ->
  py_in "--list" args = false ->
  py_in "--delete" args = false ->
  py_in "--setup" args = true ->
  (py_in "--force" args = true /\ keys' = keys)
  \/ (py_in "--force" args = false
      /\ exists answer, keys = Line answer :: keys' /\ lower answer = "yes") ->
  let w1 := snd (provider w (list_request token zone)) in
  let o0 := fst (provider w1 (list_request token zone)) in
  let r := run provider py_str token zone args w keys in
  http_requests (events r) =
    list_request token zone :: list_request token zone
    :: map (post_request token (target_of py_str zone o0)) SECURITY_RULES
    ++ map (setting_request token zone) settings
  /\ (exists t, events r = t ++ summary)
  /\ stdin (final r) = keys'
  /\ exit_status (res r) = 0%Z.
Proof.
  intros Hv Hp Hlist Hdel Hsetup Hgo. cbv zeta. enter_main Hv.
  rewrite Hlist, Hdel, Hsetup.
  listing t Ht. rewrite (Hp w). rewrite !bind_print by reflexivity.
  set (w1 := snd (provider w (list_request token zone))).
  assert (Hprompt :
            (if negb (py_in "--force" args)
             then bind (input "Continue? (yes/no): ")
                    (fun confirm =>
                       if negb (lower confirm =? "yes")%string
                       then bind (print [T ("Cancelled." ++ nl)])
                              (fun _ => sys_exit 0)
                       else ret tt)
             else ret tt) (mkSt w1 keys)
            = mkRun (Ok tt) (mkSt w1 keys')
                (if py_in "--force" args then []
                 else [EPrompt "Continue? (yes/no): "])).
  { destruct Hgo as [[-> ->]|(-> & answer & -> & Hyes)]; cbn [negb].
    - reflexivity.
    - erewrite bind_run by apply input_line.
      rewrite Hyes. reflexivity. }
  erewrite bind_run by exact Hprompt.
  cbv beta iota. rewrite bind_ret.
  assert (Hposts : posts_complete provider py_str token zone (mkSt w1 keys')).
  { apply always_passes_outcomes, Hp. }
  erewrite bind_run by (apply add_security_rules_run; exact Hposts).
  match goal with
  | |- context [bind (configure_security_settings provider token zone) _ ?s1] =>
      assert (Hpatches : patches_complete provider token zone s1)
        by (apply always_passes_outcomes, Hp);
      erewrite bind_run
        by (apply configure_security_settings_run; exact Hpatches)
  end.
  cbv beta. rewrite summary_run, !at_top_prepend, at_top_ok.
  split; [|split; [|split]].
  - cbn [prepend events].
    autorewrite with cov_trace. rewrite (http_requests_prints t Ht).
    rewrite http_requests_add_loop, http_requests_settings_loop.
    + destruct (py_in "--force" args); cbn [http_requests flat_map app];
        rewrite ?app_nil_r; reflexivity.
    + unfold patch_outcomes. rewrite length_outcomes_of, length_map.
      reflexivity.
    + unfold post_outcomes. rewrite length_outcomes_of, length_map.
      reflexivity.
  - repeat match goal with
           | |- exists t, events (prepend _ _) = _ => apply ends_prepend
           end.
    exists []. reflexivity.
  - reflexivity.
  - reflexivity.
Qed.

(** X16. When a prompt is reached (valid credentials, [--delete], or
    [--setup] without [--force]; no [--list]; the listing through: its GET
    not cut short, its failure, if any, written) and no line comes: at the
    end of input the [EOFError] reaches
    the [__main__] block, which prints "Fatal error" and exits with
    status 1; on Ctrl-C it prints "Cancelled by user." and exits with
    status 0.  In both cases the prompt has been shown (the one about
    deleting when [--delete] is there, "Continue?" otherwise) and the
    listing GET is the only call. *)
Theorem prompt_without_answer (args : list string) (w : W)
    (keys : list StdinEvent) :
  valid_config token zone ->
  py_in "--list" args = false ->
  py_in "--delete" args = true
  \/ (py_in "--setup" args = true /\ py_in "--force" args = false) ->
  passes (fst (provider w (list_request token zone))) = true ->
  keys = [] \/ (exists rest, keys = CtrlC :: rest) ->
  let r := run provider py_str token zone args w keys in
  http_requests (events r) = [list_request token zone]
  /\ In (EPrompt (if py_in "--delete" args then delete_prompt
                  else setup_prompt)) (events r)
  /\ exit_status (res r) = (match keys with [] => 1 | _ => 0 end)%Z
  /\ last (events r) (EPrint []) =
     match keys with
     | [] => fatal_line EOFError
     | _ => cancelled_by_user
     end.
Proof.
  intros Hv Hlist Hflags Hgo Hkeys. cbv zeta. enter_main Hv. rewrite Hlist.
  assert (Hin : forall (p : string) (K : string -> M W unit),
             bind (input p) K
               (mkSt (snd (provider w (list_request token zone))) keys) =
             mkRun (Raise (match keys with
                           | [] => EOFError
                           | _ => KeyboardInterrupt
                           end))
               (mkSt (snd (provider w (list_request token zone))) (tl keys))
               [EPrompt p]).
  { intros p K. destruct Hkeys as [->|(rest & ->)]; reflexivity. }
  destruct (py_in "--delete" args) eqn:Hdel.
  - listing t Ht. rewrite Hgo, Hin.
    destruct Hkeys as [->|(rest & ->)]; settle t Ht;
      (split; [reflexivity|]);
      (split; [cbn [In]; rewrite ?in_app_iff; cbn [In]; auto 20|]);
      rewrite ?app_comm_cons, ?last_app_cons; split; reflexivity.
  - destruct Hflags as [|[Hsetup Hforce]]; [discriminate|].
    rewrite Hsetup, Hforce. listing t Ht.
    rewrite Hgo, !bind_print by reflexivity.
    cbn [negb]. erewrite bind_run_raise by apply Hin.
    destruct Hkeys as [->|(rest & ->)]; settle t Ht;
      (split; [reflexivity|]);
      (split; [cbn [In]; rewrite ?in_app_iff; cbn [In]; auto 20|]);
      rewrite ?app_comm_cons, ?last_app_cons; split; reflexivity.
Qed.

(** X17. The plain deletion command (valid credentials, [--delete]
    without [--list] or [--setup]), once the listing is through (its GET
    not cut short, its failure, if any, written) and the line typed lowers
    to "yes": the calls are the listing GET and then the PUT of
    [{rules: []}] to the entrypoint, nothing else; the answer is the one
    line taken from the keyboard.  The exit status is 0, also when the PUT
    fails or is cut short by Ctrl-C, except when the PUT failed with a
    text that cannot be printed: then it is 1. *)
Theorem delete_command_confirmed (args : list string) (w : W)
    (answer : string) (keys : list StdinEvent) :
  valid_config token zone ->
  py_in "--list" args = false ->
  py_in "--delete" args = true ->
  py_in "--setup" args = false ->
  passes (fst (provider w (list_request token zone))) = true ->
  lower answer = "yes" ->
  let w1 := snd (provider w (list_request token zone)) in
  let put := provider w1 (delete_request token zone) in
  let r := run provider py_str token zone args w (Line answer :: keys) in
  http_requests (events r) =
    [list_request token zone; delete_request token zone]
  /\ final r = mkSt (snd put) keys
  /\ exit_status (res r) = (if loggable (fst put) then 0 else 1)%Z.
Proof.
  intros Hv Hlist Hdel _ Hgo Hyes. cbv zeta. enter_main Hv.
  rewrite Hlist, Hdel. listing t Ht. rewrite Hgo.
  erewrite bind_run by apply input_line. rewrite Hyes.
  cbn [String.eqb Ascii.eqb Bool.eqb]. rewrite delete_all_rules_run.
  cbv zeta. cbn [world stdin].
  outcome_cases; settle t Ht; repeat split.
Qed.

(** X21. The failure lines are printed by handlers that nothing guards.
    With valid credentials and one of [--list], [--delete], [--setup]
    among the arguments, when the listing GET fails with a text that
    cannot be printed (the [errors] of the response is a string that holds
    a lone surrogate), the [print] of the handler raises
    [UnicodeEncodeError], which leaves [list_existing_rules] and [main]:
    the run makes no other call, shows no prompt, takes nothing from the
    keyboard, ends with the "Fatal error" line of that error and exits
    with status 1, whatever the other flags and whatever is typed. *)
Theorem unprintable_listing_failure_is_fatal (args : list string) (w : W)
    (keys : list StdinEvent) :
  valid_config token zone ->
  py_in "--list" args = true \/ py_in "--delete" args = true
  \/ py_in "--setup" args = true ->
  loggable (fst (provider w (list_request token zone))) = false ->
  let r := run provider py_str token zone args w keys in
  http_requests (events r) = [list_request token zone]
  /\ existsb is_prompt (events r) = false
  /\ final r = mkSt (snd (provider w (list_request token zone))) keys
  /\ last (events r) (EPrint []) = fatal_line UnicodeEncodeError
  /\ exit_status (res r) = 1%Z.
Proof.
  intros Hv Hcmd Hlog. cbv zeta. enter_main Hv.
  destruct (stopper_unloggable _ Hlog) as [Hstop Hpass].
  assert (Hend : forall K : unit -> M W unit,
             exists t,
               at_top (bind (list_existing_rules provider token zone) K
                         (mkSt w keys)) =
               mkRun (Raise (SystemExit 1))
                 (mkSt (snd (provider w (list_request token zone))) keys)
                 ((EPrint listing_header
                   :: EHttp (list_request token zone)
                        (fst (provider w (list_request token zone)))
                   :: t) ++ [fatal_line UnicodeEncodeError])
               /\ forallb is_print t = true).
  { intros K. listing t Ht. rewrite Hpass, Hstop. exists t.
    split; [reflexivity|exact Ht]. }
  assert (Hlist_only :
            bind (list_existing_rules provider token zone) (@ret W unit)
              (mkSt w keys)
            = list_existing_rules provider token zone (mkSt w keys)).
  { unfold bind.
    destruct (res (list_existing_rules provider token zone (mkSt w keys)))
      as [[]|e] eqn:Hr; cbn [ret res final events];
      rewrite ?app_nil_r, <- ?Hr; reflexivity. }
  rewrite !at_top_prepend.
  match goal with
  | |- context [at_top ?m] =>
      assert (E : exists t,
                 at_top m =
                 mkRun (Raise (SystemExit 1))
                   (mkSt (snd (provider w (list_request token zone))) keys)
                   ((EPrint listing_header
                     :: EHttp (list_request token zone)
                          (fst (provider w (list_request token zone)))
                     :: t) ++ [fatal_line UnicodeEncodeError])
                 /\ forallb is_print t = true)
  end.
  { destruct (py_in "--list" args);
      [rewrite <- Hlist_only; apply Hend|].
    destruct (py_in "--delete" args); [apply Hend|].
    destruct (py_in "--setup" args); [apply Hend|].
    destruct Hcmd as [|[|]]; discriminate. }
  destruct E as (t & -> & Ht).
  cbn [prepend res final events exit_status app].
  autorewrite with cov_trace. rewrite (http_requests_prints t Ht).
  repeat split.
  - cbn [existsb is_prompt orb]. rewrite existsb_app.
    rewrite (prints_no_prompt t Ht). reflexivity.
  - rewrite !app_comm_cons. apply last_last.
Qed.
End Coverage.

(** ** The further properties at concrete inputs *)

Lemma listing_prints_each_rule_witness :
  let kvs := [[("action", JStr "block"); ("description", JStr "An older rule");
               ("enabled", JBool true)];
              [("action", JStr "skip")]] in
  let run := list_existing_rules (zone_model demo_zone) demo_token demo_zone
               (mkSt (map JObj kvs) []) in
  res run = Ok tt
  /\ printed (events run) =
     [listing_header; found_line 2;
      [V (JNum 1); T ". "; V (JStr "An older rule")];
      [T "   Action: "; V (JStr "block")];
      [T "   Enabled: "; V (JBool true)];
      [];
      [V (JNum 2); T ". "; V (JStr "Unnamed rule")];
      [T "   Action: "; V (JStr "skip")];
      [T "   Enabled: "; V JNull];
      []].
Proof.
  cbv zeta.
  set (kvs := [[("action", JStr "block");
                ("description", JStr "An older rule");
                ("enabled", JBool true)];
               [("action", JStr "skip")]]).
  assert (Hne : kvs <> []) by discriminate.
  pose proof (listing_prints_each_rule _ (zone_model demo_zone) demo_token
                demo_zone (mkSt (map JObj kvs) [])
                (ok_body (JObj [("id", JStr "rs1");
                                ("rules", JArr (map JObj kvs))]))
                (JObj [("id", JStr "rs1"); ("rules", JArr (map JObj kvs))])
                kvs eq_refl eq_refl eq_refl eq_refl Hne) as H.
  cbv zeta in H.
  destruct H as (H1 & H2 & _). split; [exact H1 | exact H2].
Defined.

Lemma listing_stops_at_malformed_entry_witness :
  let run := list_existing_rules (zone_model demo_zone) demo_token demo_zone
               (mkSt [JObj [("description", JStr "first")];
                      JObj [("description", JStr lone_surrogate)];
                      JStr "not a rule";
                      old_rule] []) in
  res run = Ok tt
  /\ printed (events run) =
     [listing_header; found_line 4;
      [V (JNum 1); T ". "; V (JStr "first")];
      [T "   Action: "; V JNull];
      [T "   Enabled: "; V JNull];
      [];
      listing_failed_line UnicodeEncodeError].
Proof.
  cbv zeta.
  eapply (listing_stops_at_malformed_entry _ (zone_model demo_zone)
            demo_token demo_zone _ _ _
            [[("description", JStr "first")];
             [("description", JStr lone_surrogate)]]
            (JStr "not a rule") [old_rule]);
    [reflexivity | reflexivity | reflexivity | reflexivity
    | intros kv; discriminate].
Defined.

Lemma listing_reports_none_witness :
  let run := list_existing_rules (zone_model demo_zone) demo_token demo_zone
               (mkSt [] []) in
  res run = Ok tt
  /\ printed (events run) = [listing_header; no_rules_line].
Proof.
  cbv zeta.
  eapply (listing_reports_none _ (zone_model demo_zone) demo_token demo_zone);
    [reflexivity | reflexivity | reflexivity
    | right; exists (JArr []); split; reflexivity].
Defined.

Lemma listing_reports_failure_witness :
  let run := list_existing_rules scripted demo_token demo_zone
               (mkSt [refused_response; ok_response] []) in
  let bad := list_existing_rules scripted demo_token demo_zone
               (mkSt [unprintable_refusal; ok_response] []) in
  (res run = Ok tt
   /\ printed (events run) =
      [listing_header;
       listing_failed_line (APIError (JArr [JStr "rule limit exceeded"]))])
  /\ (res bad = Raise UnicodeEncodeError
      /\ printed (events bad) = [listing_header]).
Proof.
  cbv zeta. split.
  - apply (listing_reports_failure _ scripted demo_token demo_zone
             (mkSt [refused_response; ok_response] [])
             (APIError (JArr [JStr "rule limit exceeded"])));
      reflexivity.
  - apply (listing_reports_failure _ scripted demo_token demo_zone
             (mkSt [unprintable_refusal; ok_response] [])
             (APIError (JStr lone_surrogate)));
      reflexivity.
Defined.

Lemma settings_patched_in_table_order_witness :
  let s := mkSt [ok_response; refused_response; TransportFailure;
                 Responded None; ok_response] [] in
  let r := configure_security_settings scripted demo_token demo_zone s in
  patches_complete scripted demo_token demo_zone s
  /\ res r = Ok tt
  /\ map rq_url (http_requests (events r)) =
     map (fun name =>
            (API_BASE ++ "/zones/" ++ demo_zone ++ "/settings/" ++ name)%string)
       ["security_level"; "browser_check"; "always_use_https";
        "min_tls_version"; "tls_1_3"].
Proof.
  cbv zeta.
  assert (H : patches_complete scripted demo_token demo_zone
                (mkSt [ok_response; refused_response; TransportFailure;
                       Responded None; ok_response] []))
    by (vm_compute; repeat constructor).
  split; [exact H|].
  destruct (settings_patched_in_table_order _ scripted demo_token demo_zone
              _ H) as (Hres & _ & _ & Hcalls & _).
  split; [exact Hres|].
  apply (f_equal (map (fun q => snd (fst (fst q))))) in Hcalls.
  rewrite !map_map in Hcalls. exact Hcalls.
Defined.

Lemma list_flag_only_lists_witness :
  let r := run (zone_model demo_zone) str_of_scalar demo_token demo_zone
             ["--setup"; "--delete"; "--list"] [old_rule] [Line "yes"] in
  http_requests (events r) = [list_request demo_token demo_zone]
  /\ final r = mkSt [old_rule] [Line "yes"]
  /\ existsb is_prompt (events r) = false
  /\ exit_status (res r) = 0%Z.
Proof.
  apply (list_flag_only_lists _ (zone_model demo_zone) str_of_scalar
           demo_token demo_zone ["--setup"; "--delete"; "--list"] [old_rule]
           [Line "yes"]);
    [split; discriminate | reflexivity].
Defined.

Lemma usage_without_command_witness :
  let r := run (zone_model demo_zone) str_of_scalar demo_token demo_zone
             ["--force"; "--help"] [old_rule] [Line "yes"] in
  events r = banner ++ usage
  /\ final r = mkSt [old_rule] [Line "yes"]
  /\ exit_status (res r) = 0%Z.
Proof.
  apply (usage_without_command _ (zone_model demo_zone) str_of_scalar
           demo_token demo_zone ["--force"; "--help"] [old_rule]
           [Line "yes"]);
    [split; discriminate | reflexivity | reflexivity | reflexivity].
Defined.

Lemma setup_adds_then_configures_witness :
  let r := run (zone_model demo_zone) str_of_scalar demo_token demo_zone
             ["--setup"] [old_rule] [Line "YES"; Line "again"] in
  http_requests (events r) =
    list_request demo_token demo_zone :: list_request demo_token demo_zone
    :: map (post_request demo_token
              (rules_url str_of_scalar demo_zone (JStr "rs1")))
         SECURITY_RULES
    ++ map (setting_request demo_token demo_zone) settings
  /\ (exists t, events r = t ++ summary)
  /\ stdin (final r) = [Line "again"]
  /\ exit_status (res r) = 0%Z.
Proof.
  apply (setup_adds_then_configures _ (zone_model demo_zone) str_of_scalar
           demo_token demo_zone ["--setup"] [old_rule]
           [Line "YES"; Line "again"] [Line "again"]);
    [split; discriminate | apply zone_model_always_passes
    | reflexivity | reflexivity | reflexivity
    | right; split; [reflexivity | exists "YES"; split; reflexivity]].
Defined.

Lemma prompt_without_answer_witness :
  let r := run (zone_model demo_zone) str_of_scalar demo_token demo_zone
             ["--setup"] [old_rule] [] in
  http_requests (events r) = [list_request demo_token demo_zone]
  /\ In (EPrompt setup_prompt) (events r)
  /\ exit_status (res r) = 1%Z
  /\ last (events r) (EPrint []) = fatal_line EOFError.
Proof.
  apply (prompt_without_answer _ (zone_model demo_zone) str_of_scalar
           demo_token demo_zone ["--setup"] [old_rule] []);
    [split; discriminate | reflexivity | right; split; reflexivity
    | reflexivity | left; reflexivity].
Defined.

Lemma delete_command_confirmed_witness :
  let r := run (zone_model demo_zone) str_of_scalar demo_token demo_zone
             ["--delete"] [old_rule] [Line "Yes"; Line "again"] in
  http_requests (events r) =
    [list_request demo_token demo_zone; delete_request demo_token demo_zone]
  /\ final r = mkSt [] [Line "again"]
  /\ exit_status (res r) = 0%Z.
Proof.
  apply (delete_command_confirmed _ (zone_model demo_zone) str_of_scalar
           demo_token demo_zone ["--delete"] [old_rule] "Yes"
           [Line "again"]);
    [split; discriminate | reflexivity | reflexivity | reflexivity
    | reflexivity | reflexivity].
Defined.

Lemma unprintable_listing_failure_is_fatal_witness :
  let r := run scripted str_of_scalar demo_token demo_zone
             ["--setup"; "--force"] (unprintable_refusal :: repeat ok_response 11)
             [Line "yes"] in
  http_requests (events r) = [list_request demo_token demo_zone]
  /\ existsb is_prompt (events r) = false
  /\ final r = mkSt (repeat ok_response 11) [Line "yes"]
  /\ last (events r) (EPrint []) = fatal_line UnicodeEncodeError
  /\ exit_status (res r) = 1%Z.
Proof.
  apply (unprintable_listing_failure_is_fatal _ scripted str_of_scalar
           demo_token demo_zone ["--setup"; "--force"]
           (unprintable_refusal :: repeat ok_response 11) [Line "yes"]);
    [split; discriminate | right; right; reflexivity | reflexivity].
Defined.

Lemma make_request_unknown_method_witness :
  make_request (zone_model demo_zone) demo_token (entrypoint demo_zone) "HEAD"
    None (mkSt [old_rule] [Line "yes"]) =
  mkRun (Raise UnboundLocalError) (mkSt [old_rule] [Line "yes"]) [].
Proof.
  apply (make_request_unknown_method _ (zone_model demo_zone) demo_token).
  cbn [In]. intros [H|[H|[H|[H|[H|[]]]]]]; discriminate H.
Defined.
